(** * Post resource handler (routes/api/posts.js)

    A shallow embedding of the seven Express route handlers of
    [routes/api/posts.js] and of the parts of their collaborators
    (mongoose models, express-validator, the Express response object)
    that the handlers rely on, followed by the properties of the
    handlers. *)

From Stdlib Require Import String Ascii NArith.
From stdpp Require Import base option list gmap strings sorting.

Local Open Scope string_scope.

(** ** JavaScript errors *)

(** A thrown value: the handlers read [err.message] and [err.kind]. *)
Record Error := { message : string; kind : option string }.

(** Mongoose's CastError for a value that cannot be cast to an ObjectId. *)
Definition CastError : Error :=
  {| message := "Cast to ObjectId failed"; kind := Some "ObjectId" |}.

(** Reading a property of [null] / [undefined]. *)
Definition TypeError (prop : string) : Error :=
  {| message := "Cannot read property '" ++ prop ++ "' of null"; kind := None |}.

(** Raised by Express when a response is written after one was sent. *)
Definition HeadersSentError : Error :=
  {| message := "Cannot set headers after they are sent to the client";
     kind := None |}.

(** Raised by the store when a new document's [_id] is already in use. *)
Definition DuplicateKeyError : Error :=
  {| message := "E11000 duplicate key error"; kind := None |}.

(** ** Data model *)

(** Modelled from the spec: the schemas models/User.js and models/Post.js
    are not part of the sources.  The handlers read [user.name] and
    [user.avatar]. *)
Record UserDoc := { user_name : string; user_avatar : string }.

(** Modelled from the spec: models/Post.js is missing.  [likes] is the
    sequence of the likers' user ids, most recent first; the handler reads
    the user id of an element as [liker.id], and [likes.unshift(uid)] is
    cast by the store to the element whose [id] is [uid]. *)
Record LikeDoc := { liker_id : string }.

(** Modelled from the spec: Comment is
    { id, text, name, avatar, user, date }. *)
Record CommentDoc := {
  comment_id : string;
  comment_text : string;
  comment_name : string;
  comment_avatar : string;
  comment_user : string;
  comment_date : N
}.

(** Modelled from the spec: Post is
    { id, text, name, avatar, user, likes, comments, date }. *)
Record PostDoc := {
  post_id : string;
  post_text : string;
  post_name : string;
  post_avatar : string;
  post_user : string;
  post_likes : list LikeDoc;
  post_comments : list CommentDoc;
  post_date : N
}.

(** [post.likes = l] and [post.comments = c] on a fetched document. *)
Definition set_likes (l : list LikeDoc) (p : PostDoc) : PostDoc :=
  {| post_id := post_id p; post_text := post_text p; post_name := post_name p;
     post_avatar := post_avatar p; post_user := post_user p;
     post_likes := l; post_comments := post_comments p;
     post_date := post_date p |}.

Definition set_comments (c : list CommentDoc) (p : PostDoc) : PostDoc :=
  {| post_id := post_id p; post_text := post_text p; post_name := post_name p;
     post_avatar := post_avatar p; post_user := post_user p;
     post_likes := post_likes p; post_comments := c;
     post_date := post_date p |}.

(** ** HTTP responses *)

(** One entry of express-validator's [errors.array()]. *)
Record FieldError := {
  fe_value : option string;
  fe_msg : string;
  fe_param : string;
  fe_location : string
}.

Inductive Body :=
| Json_msg (msg : string)                 (* { msg: ... } *)
| Json_errors (errors : list FieldError)  (* { errors: [...] } *)
| Json_post (post : PostDoc)
| Json_posts (posts : list PostDoc)
| Json_likes (likes : list LikeDoc)
| Json_comments (comments : list CommentDoc)
| Text (s : string).                      (* res.send('...') *)

Record Response := { status : nat; body : Body }.

(** ** The state a handler runs in *)

Record Db := {
  users : gmap string UserDoc;
  posts : gmap string PostDoc
}.

(** [sent] lists, in call order, every response the handler handed to
    [res.json] / [res.send]; only the first one reaches the client.
    [console] is what was written with [console.error]. *)
Record State := {
  db : Db;
  sent : list Response;
  console : list string
}.

(** What the store and the clock supply to a request: the ObjectId given
    to a document created while serving it and the value of [Date.now]. *)
Record Env := { new_oid : string; now : N }.

(** The request as the handlers see it, after the [auth] middleware has
    set [req.user.id]. *)
Record Request := {
  user_id : string;              (* req.user.id *)
  params_id : string;            (* req.params.id *)
  params_p_id : string;          (* req.params.p_id *)
  params_c_id : string;          (* req.params.c_id *)
  body_text : option string      (* req.body.text *)
}.

(** ** A state and exception monad for [async] handler bodies *)

Definition M (A : Type) : Type := State -> (Error + A) * State.

Definition ret {A} (a : A) : M A := fun st => (inr a, st).

Definition bind {A B} (m : M A) (k : A -> M B) : M B :=
  fun st =>
    match m st with
    | (inl e, st') => (inl e, st')
    | (inr a, st') => k a st'
    end.

Definition throw {A} (e : Error) : M A := fun st => (inl e, st).

(** [try { body } catch (err) { handler }] *)
Definition try_catch {A} (body : M A) (handler : Error -> M A) : M A :=
  fun st =>
    match body st with
    | (inl e, st') => handler e st'
    | (inr a, st') => (inr a, st')
    end.

Notation "'let*' x ':=' m 'in' k" := (bind m (fun x => k))
  (at level 10, x name, m at level 100, k at level 200).
Notation "m ';;' k" := (bind m (fun _ => k))
  (at level 100, k at level 200, right associativity).

(** [o.prop] where [o] may be [null]. *)
Definition deref {A} (o : option A) (prop : string) : M A :=
  match o with
  | Some a => ret a
  | None => throw (TypeError prop)
  end.

(** ** The Express response object and the console *)

(** [res.status(code).json(b)] and [res.status(code).send(b)]: the call is
    recorded; when a response was already sent, writing the headers of
    another one throws. *)
Definition res_send (code : nat) (b : Body) : M unit :=
  fun st =>
    let st' := {| db := db st;
                  sent := sent st ++ [{| status := code; body := b |}];
                  console := console st |} in
    match sent st with
    | [] => (inr tt, st')
    | _ :: _ => (inl HeadersSentError, st')
    end.

Definition console_error (s : string) : M unit :=
  fun st => (inr tt, {| db := db st; sent := sent st;
                        console := console st ++ [s] |}).

(** The response the client receives. *)
Definition delivered (st : State) : option Response := head (sent st).

(** ** express-validator *)

(** [validationResult(req)] for the chain
    [check('text', 'Text is required').not().isEmpty()]. *)
Definition validationResult (req : Request) : list FieldError :=
  match body_text req with
  | Some t =>
      if decide (t = "") then
        [{| fe_value := Some t; fe_msg := "Text is required";
            fe_param := "text"; fe_location := "body" |}]
      else []
  | None =>
      [{| fe_value := None; fe_msg := "Text is required";
          fe_param := "text"; fe_location := "body" |}]
  end.

Definition isEmpty {A} (l : list A) : bool :=
  match l with [] => true | _ :: _ => false end.

(** ** The mongoose models *)

Definition is_hex_digit (c : ascii) : bool :=
  let n := nat_of_ascii c in
  ((48 <=? n)%nat && (n <=? 57)%nat) || ((97 <=? n)%nat && (n <=? 102)%nat)
  || ((65 <=? n)%nat && (n <=? 70)%nat).

Definition to_lower (c : ascii) : ascii :=
  let n := nat_of_ascii c in
  if (65 <=? n)%nat && (n <=? 70)%nat then ascii_of_nat (n + 32) else c.

Definition hex_digit (n : nat) : ascii :=
  match n with
  | 0 => "0" | 1 => "1" | 2 => "2" | 3 => "3" | 4 => "4" | 5 => "5"
  | 6 => "6" | 7 => "7" | 8 => "8" | 9 => "9" | 10 => "a" | 11 => "b"
  | 12 => "c" | 13 => "d" | 14 => "e" | _ => "f"
  end%char.

Fixpoint all_chars (f : ascii → bool) (s : string) : bool :=
  match s with
  | EmptyString => true
  | String c s' => f c && all_chars f s'
  end.

Fixpoint map_chars (f : ascii → ascii) (s : string) : string :=
  match s with
  | EmptyString => EmptyString
  | String c s' => String (f c) (map_chars f s')
  end.

(** Two lower-case hexadecimal digits for each byte. *)
Fixpoint hex_of_bytes (s : string) : string :=
  match s with
  | EmptyString => EmptyString
  | String c s' =>
      String (hex_digit (nat_of_ascii c / 16))
        (String (hex_digit (nat_of_ascii c mod 16)) (hex_of_bytes s'))
  end.

(** [ObjectId.isValid]: a string of 24 hexadecimal digits, in either
    case, or any string of 12 characters. *)
Definition isObjectId (s : string) : bool :=
  ((String.length s =? 24)%nat && all_chars is_hex_digit s)
  || (String.length s =? 12)%nat.

(** The cast mongoose applies to an id before it queries or stores it,
    given as the hexadecimal string of the resulting ObjectId ([toString]):
    24 hexadecimal digits denote the id they spell, whatever their case;
    12 characters denote the id with these 12 bytes; nothing else is an
    id.  Documents are stored under, and own, ids in this form. *)
Definition castObjectId (s : string) : option string :=
  if (String.length s =? 24)%nat && all_chars is_hex_digit s
  then Some (map_chars to_lower s)
  else if (String.length s =? 12)%nat then Some (hex_of_bytes s)
  else None.

(** A value assigned to a path of type ObjectId. *)
Definition cast_path (v : string) : M string :=
  match castObjectId v with
  | Some oid => ret oid
  | None => throw CastError
  end.

Definition set_posts (ps : gmap string PostDoc) (st : State) : State :=
  {| db := {| users := users (db st); posts := ps |};
     sent := sent st; console := console st |}.

Module User.

(** [User.findById(id).select('-password')] *)
Definition findById (id : string) : M (option UserDoc) :=
  fun st =>
    match castObjectId id with
    | Some oid => (inr (users (db st) !! oid), st)
    | None => (inl CastError, st)
    end.

End User.

Module Post.

(** [Post.findById(id)]: the id is cast first; an id that cannot be cast
    makes the query throw, an id of no document gives [null]. *)
Definition findById (id : string) : M (option PostDoc) :=
  fun st =>
    match castObjectId id with
    | Some oid => (inr (posts (db st) !! oid), st)
    | None => (inl CastError, st)
    end.

(** [Post.find().sort({ date: -1 })]: newest first. *)
Fixpoint insert_by_date (p : PostDoc) (l : list PostDoc) : list PostDoc :=
  match l with
  | [] => [p]
  | q :: l' =>
      if (post_date q <=? post_date p)%N then p :: l
      else q :: insert_by_date p l'
  end.

Definition find_sorted : M (list PostDoc) :=
  fun st =>
    (inr (foldr insert_by_date [] (snd <$> map_to_list (posts (db st)))),
     st).

(** The document [new Post({ text, name, avatar, user })] builds, [user]
    being the owner's ObjectId: the schema defaults give it its [_id],
    empty [likes] and [comments], and its [date]. *)
Definition doc (env : Env) (text name avatar user : string) : PostDoc :=
  {| post_id := new_oid env; post_text := text; post_name := name;
     post_avatar := avatar; post_user := user;
     post_likes := []; post_comments := []; post_date := now env |}.

(** [new Post({ text, name, avatar, user })]: the value given for [user]
    is cast to an ObjectId.  A value that cannot be cast invalidates the
    document, which [save()] then rejects; the handler does nothing
    between the two, so the rejection is raised here. *)
Definition new (env : Env) (text name avatar user : string) : M PostDoc :=
  let* oid := cast_path user in
  ret (doc env text name avatar oid).

(** [post.comments.unshift({ text, name, avatar, user })]: the object is
    cast to a comment subdocument, which gets its [_id] and [date] from
    the schema defaults and whose [user] is cast to an ObjectId. *)
Definition subdocument (env : Env) (text name avatar user : string) :
  M CommentDoc :=
  let* oid := cast_path user in
  ret {| comment_id := new_oid env; comment_text := text;
         comment_name := name; comment_avatar := avatar;
         comment_user := oid; comment_date := now env |}.

(** [newPost.save()] of a document that is not yet stored. *)
Definition save_new (p : PostDoc) : M PostDoc :=
  fun st =>
    match posts (db st) !! post_id p with
    | Some _ => (inl DuplicateKeyError, st)
    | None => (inr p, set_posts (<[post_id p := p]> (posts (db st))) st)
    end.

(** [post.save()] of a fetched document. *)
Definition save (p : PostDoc) : M unit :=
  fun st => (inr tt, set_posts (<[post_id p := p]> (posts (db st))) st).

(** [post.remove()] *)
Definition remove (p : PostDoc) : M unit :=
  fun st => (inr tt, set_posts (delete (post_id p) (posts (db st))) st).

End Post.

(** ** The route handlers *)

(** [req.body.text], a string once validation has passed. *)
Definition text_of (req : Request) : string := default "" (body_text req).

(** POST api/posts: create a post. *)
Definition CreatePost (env : Env) (req : Request) : M unit :=
  let errors := validationResult req in
  if negb (isEmpty errors) then res_send 400 (Json_errors errors)
  else
    try_catch
      (let* user := User.findById (user_id req) in
       let* user := deref user "name" in
       let* newPost :=
         Post.new env (text_of req) (user_name user) (user_avatar user)
                  (user_id req) in
       let* post := Post.save_new newPost in
       res_send 200 (Json_post post))
      (fun err =>
         console_error (message err);;
         res_send 500 (Text "Server Error")).

(** GET api/posts: all posts. *)
Definition ListPosts (req : Request) : M unit :=
  try_catch
    (let* posts := Post.find_sorted in
     res_send 200 (Json_posts posts))
    (fun err =>
       console_error (message err);;
       res_send 500 (Text "Server Error")).

(** The [catch] block shared, up to the message, by the handlers that
    inspect [err.kind]: the 404 is sent without returning, so control
    reaches the 500 as well. *)
Definition catch_kind (msg : string) (err : Error) : M unit :=
  console_error (message err);;
  (if decide (kind err = Some "ObjectId")
   then res_send 404 (Json_msg msg) else ret tt);;
  res_send 500 (Text "Server Error").

(** GET api/posts/:id: post by id. *)
Definition GetPost (req : Request) : M unit :=
  try_catch
    (let* post := Post.findById (params_id req) in
     match post with
     | None => res_send 404 (Json_msg "Post not found")
     | Some post => res_send 200 (Json_post post)
     end)
    (catch_kind "Post not found").

(** DELETE api/posts/:id: delete post by id. *)
Definition DeletePost (req : Request) : M unit :=
  try_catch
    (let* post := Post.findById (params_id req) in
     match post with
     | None => res_send 404 (Json_msg "Post not found")
     | Some post =>
         if decide (post_user post ≠ user_id req)
         then res_send 401 (Json_msg "Not your post")
         else
           Post.remove post;;
           res_send 200 (Json_msg "Post deleted")
     end)
    (catch_kind "Post not found").

(** PUT api/posts/:id/tlike: toggle the caller's like. *)
Definition ToggleLike (req : Request) : M unit :=
  try_catch
    (let* post := Post.findById (params_id req) in
     let* post := deref post "likes" in
     let post :=
       if (length (filter (λ liker, liker_id liker = user_id req)
                          (post_likes post)) =? 0)%nat
       then set_likes ({| liker_id := user_id req |} :: post_likes post) post
       else set_likes (filter (λ liker, liker_id liker ≠ user_id req)
                              (post_likes post)) post in
     Post.save post;;
     res_send 200 (Json_likes (post_likes post)))
    (fun err =>
       console_error (message err);;
       res_send 500 (Text "Server Error")).

(** POST api/posts/:id: comment on a post. *)
Definition AddComment (env : Env) (req : Request) : M unit :=
  let errors := validationResult req in
  if negb (isEmpty errors) then res_send 400 (Json_errors errors)
  else
    try_catch
      (let* user := User.findById (user_id req) in
       let* post := Post.findById (params_id req) in
       let* user := deref user "name" in
       let* post := deref post "comments" in
       let* newComment :=
         Post.subdocument env (text_of req) (user_name user)
                          (user_avatar user) (user_id req) in
       let post := set_comments (newComment :: post_comments post) post in
       Post.save post;;
       res_send 200 (Json_comments (post_comments post)))
      (fun err =>
         console_error (message err);;
         res_send 500 (Text "Server Error")).

(** DELETE api/posts/:p_id/:c_id: delete a comment. *)
Definition DeleteComment (req : Request) : M unit :=
  try_catch
    (let* post := Post.findById (params_p_id req) in
     match post with
     | None => res_send 404 (Json_msg "Post not found")
     | Some post =>
         let commentsMatched :=
           filter (λ cmt, comment_id cmt = params_c_id req)
                  (post_comments post) in
         if negb (length commentsMatched =? 1)%nat
         then res_send 404 (Json_msg "Comment not found")
         else
           let* comment := deref (commentsMatched !! 0%nat) "user" in
           if decide (comment_user comment ≠ user_id req)
           then res_send 401 (Json_msg "Not your comment")
           else
             let post :=
               set_comments (filter (λ cmt, comment_id cmt ≠ params_c_id req)
                                    (post_comments post)) post in
             Post.save post;;
             res_send 200 (Json_msg "Comment deleted")
     end)
    (catch_kind "Couldn't locate resource").

(** ** The router *)

Inductive Route :=
| POST_posts        (* POST   /      *)
| GET_posts         (* GET    /      *)
| GET_post          (* GET    /:id   *)
| DELETE_post       (* DELETE /:id   *)
| PUT_tlike         (* PUT    /:id/tlike *)
| POST_comment      (* POST   /:id   *)
| DELETE_comment.   (* DELETE /:p_id/:c_id *)

Definition router (rt : Route) (env : Env) (req : Request) : M unit :=
  match rt with
  | POST_posts => CreatePost env req
  | GET_posts => ListPosts req
  | GET_post => GetPost req
  | DELETE_post => DeletePost req
  | PUT_tlike => ToggleLike req
  | POST_comment => AddComment env req
  | DELETE_comment => DeleteComment req
  end.

(** Serving one request on a store: the response object starts empty. *)
Definition serve (h : M unit) (d : Db) : State :=
  snd (h {| db := d; sent := []; console := [] |}).

(** The stores this module can bring about: the post collection starts
    empty and changes only through the routes; the user collection is
    maintained elsewhere and may change between requests. *)
Inductive reachable : Db -> Prop :=
| reach_init us : reachable {| users := us; posts := ∅ |}
| reach_users d us :
    reachable d -> reachable {| users := us; posts := posts d |}
| reach_serve d rt env req :
    reachable d -> reachable (db (serve (router rt env req) d)).

(** [p] is the stored post the request id [id] denotes. *)
Definition stored (d : Db) (id : string) (p : PostDoc) : Prop :=
  castObjectId id = Some (post_id p) ∧ posts d !! post_id p = Some p.

(** The user ids in a like list. *)
Definition likers (l : list LikeDoc) : list string := liker_id <$> l.

(** ** What a request can do to the post collection *)

Inductive posts_change (ps : gmap string PostDoc) :
  Route → gmap string PostDoc → Prop :=
| change_none rt : posts_change ps rt ps
| change_create p :
    ps !! post_id p = None → post_likes p = [] →
    posts_change ps POST_posts (<[post_id p := p]> ps)
| change_remove id p :
    ps !! id = Some p →
    posts_change ps DELETE_post (delete (post_id p) ps)
| change_like id p u :
    ps !! id = Some p → u ∉ likers (post_likes p) →
    posts_change ps PUT_tlike
      (<[post_id p := set_likes ({| liker_id := u |} :: post_likes p) p]> ps)
| change_unlike id p u :
    ps !! id = Some p →
    posts_change ps PUT_tlike
      (<[post_id p :=
           set_likes (filter (λ liker, liker_id liker ≠ u) (post_likes p)) p]>
         ps)
| change_comments rt id p c :
    ps !! id = Some p →
    posts_change ps rt (<[post_id p := set_comments c p]> ps).

(** Documents are stored under their own id, and no user id occurs twice
    in a like list. *)
Definition store_ok (ps : gmap string PostDoc) : Prop :=
  ∀ id p, ps !! id = Some p →
          post_id p = id ∧ NoDup (likers (post_likes p)).

(** ** The writes of a request, branch by branch *)

(** The post collection after one request: each constructor is one path
    through a handler that ends in [save()] or [remove()], with the tests
    the handler made on the way; every other path writes nothing. *)
Inductive writes (d : Db) (env : Env) (req : Request) :
  Route → gmap string PostDoc → Prop :=
| writes_nothing rt : writes d env req rt (posts d)
| writes_post t uid u :
    body_text req = Some t → t ≠ "" →
    castObjectId (user_id req) = Some uid → users d !! uid = Some u →
    posts d !! new_oid env = None →
    writes d env req POST_posts
      (<[new_oid env := Post.doc env t (user_name u) (user_avatar u) uid]>
         (posts d))
| writes_removal oid p :
    castObjectId (params_id req) = Some oid → posts d !! oid = Some p →
    post_user p = user_id req →
    writes d env req DELETE_post (delete (post_id p) (posts d))
| writes_like oid p :
    castObjectId (params_id req) = Some oid → posts d !! oid = Some p →
    user_id req ∉ likers (post_likes p) →
    writes d env req PUT_tlike
      (<[post_id p :=
           set_likes ({| liker_id := user_id req |} :: post_likes p) p]>
         (posts d))
| writes_unlike oid p :
    castObjectId (params_id req) = Some oid → posts d !! oid = Some p →
    user_id req ∈ likers (post_likes p) →
    writes d env req PUT_tlike
      (<[post_id p :=
           set_likes (filter (λ liker, liker_id liker ≠ user_id req)
                             (post_likes p)) p]>
         (posts d))
| writes_comment t uid u oid p :
    body_text req = Some t → t ≠ "" →
    castObjectId (user_id req) = Some uid → users d !! uid = Some u →
    castObjectId (params_id req) = Some oid → posts d !! oid = Some p →
    writes d env req POST_comment
      (<[post_id p :=
           set_comments
             ({| comment_id := new_oid env; comment_text := t;
                 comment_name := user_name u;
                 comment_avatar := user_avatar u;
                 comment_user := uid; comment_date := now env |}
                :: post_comments p) p]>
         (posts d))
| writes_uncomment oid p c :
    castObjectId (params_p_id req) = Some oid →
    posts d !! oid = Some p →
    filter (λ cmt, comment_id cmt = params_c_id req) (post_comments p) = [c] →
    comment_user c = user_id req →
    writes d env req DELETE_comment
      (<[post_id p :=
           set_comments (filter (λ cmt, comment_id cmt ≠ params_c_id req)
                                (post_comments p)) p]>
         (posts d)).

(** What validation and the lookups guarantee of stored documents: a post
    is stored under its own id, has a non-empty text and an owner id that
    is well formed, and so has each of its comments. *)
Definition comment_ok (c : CommentDoc) : Prop :=
  comment_text c ≠ "" ∧ isObjectId (comment_user c) = true.

Definition post_ok (id : string) (p : PostDoc) : Prop :=
  post_id p = id ∧ post_text p ≠ "" ∧ isObjectId (post_user p) = true ∧
  ∀ c, c ∈ post_comments p → comment_ok c.

(** Newest first: no post is older than the one after it. *)
Definition newest_first (l : list PostDoc) : Prop :=
  Sorted (λ p q, (post_date q ≤ post_date p)%N) l.

(** ** Sample data *)

Module Sample.

Definition alice : string := "5f0000000000000000000a11".
Definition bob : string := "5f0000000000000000000b0b".
Definition pid : string := "60000000000000000000abcd".
(** Another spelling of [pid]. *)
Definition PID : string := "60000000000000000000ABCD".
Definition cid : string := "6000000000000000000000c1".
Definition nobody : string := "60000000000000000000dead".
Definition cid2 : string := "6000000000000000000000c2".
(** A 12-character id, of no document. *)
Definition twelve : string := "abcdefghijkl".

Definition us : gmap string UserDoc :=
  {[ alice := {| user_name := "Alice"; user_avatar := "a.png" |};
     bob := {| user_name := "Bob"; user_avatar := "b.png" |} ]}.

Definition db0 : Db := {| users := us; posts := ∅ |}.

Definition env1 : Env := {| new_oid := pid; now := 100%N |}.
Definition env2 : Env := {| new_oid := cid; now := 200%N |}.

Definition request (caller id : string) (text : option string) : Request :=
  {| user_id := caller; params_id := id; params_p_id := id;
     params_c_id := cid; body_text := text |}.

(** Alice posts, then Alice and Bob like the post, Bob last. *)
Definition db1 : Db :=
  db (serve (router POST_posts env1 (request alice "" (Some "hello"))) db0).
Definition db2 : Db :=
  db (serve (router PUT_tlike env1 (request alice pid None)) db1).
Definition db3 : Db :=
  db (serve (router PUT_tlike env1 (request bob pid None)) db2).
(** Bob comments on the post. *)
Definition db4 : Db :=
  db (serve (router POST_comment env2 (request bob pid (Some "nice"))) db3).

(** The sample post as stored in [db3] and in [db4]. *)
Definition post3 : PostDoc :=
  {| post_id := pid; post_text := "hello"; post_name := "Alice";
     post_avatar := "a.png"; post_user := alice;
     post_likes := [{| liker_id := bob |};
                    {| liker_id := alice |}];
     post_comments := []; post_date := 100%N |}.

Definition comment4 : CommentDoc :=
  {| comment_id := cid; comment_text := "nice";
     comment_name := "Bob"; comment_avatar := "b.png";
     comment_user := bob; comment_date := 200%N |}.

Definition post4 : PostDoc :=
  set_comments [comment4] post3.

End Sample.

(** * Properties *)

(** ** Running a handler *)

Ltac unfold_handler :=
  unfold serve, CreatePost, ListPosts, GetPost, DeletePost, ToggleLike,
    AddComment, DeleteComment, catch_kind, try_catch, bind, ret, throw,
    deref, User.findById, Post.findById, Post.find_sorted, Post.new,
    Post.subdocument, cast_path, Post.save_new, Post.save, Post.remove,
    res_send, console_error, set_posts, bind, ret, throw;
  cbn [fst snd db sent console users posts].

(** ** The ObjectId cast *)

Lemma length_map_chars (f : ascii → ascii) (s : string) :
  String.length (map_chars f s) = String.length s.
Proof. induction s as [|c s IH]; cbn; congruence. Qed.

Lemma length_hex_of_bytes (s : string) :
  String.length (hex_of_bytes s) = (2 * String.length s)%nat.
Proof. induction s as [|c s IH]; cbn; [done|]. rewrite IH. lia. Qed.

Lemma to_lower_hex (c : ascii) :
  is_hex_digit c = true →
  is_hex_digit (to_lower c) = true ∧ to_lower (to_lower c) = to_lower c.
Proof.
  destruct c as [[] [] [] [] [] [] [] []]; vm_compute; intros H;
    first [discriminate H | split; reflexivity].
Qed.

Lemma hex_digit_lower (c : ascii) :
  let hi := hex_digit (nat_of_ascii c / 16) in
  let lo := hex_digit (nat_of_ascii c mod 16) in
  is_hex_digit hi = true ∧ to_lower hi = hi ∧
  is_hex_digit lo = true ∧ to_lower lo = lo.
Proof.
  destruct c as [[] [] [] [] [] [] [] []]; vm_compute; repeat split.
Qed.

Lemma map_chars_lower_hex (s : string) :
  all_chars is_hex_digit s = true →
  all_chars is_hex_digit (map_chars to_lower s) = true ∧
  map_chars to_lower (map_chars to_lower s) = map_chars to_lower s.
Proof.
  induction s as [|c s IH]; [done|]. cbn [all_chars map_chars].
  intros [Hc Hs]%andb_true_iff. destruct (IH Hs) as [IH1 IH2].
  destruct (to_lower_hex c Hc) as [H1 H2]. rewrite H1, H2, IH1, IH2. done.
Qed.

Lemma hex_of_bytes_lower_hex (s : string) :
  all_chars is_hex_digit (hex_of_bytes s) = true ∧
  map_chars to_lower (hex_of_bytes s) = hex_of_bytes s.
Proof.
  induction s as [|c s IH]; [done|]. destruct IH as [IH1 IH2].
  cbn [all_chars map_chars hex_of_bytes].
  destruct (hex_digit_lower c) as (H1 & H2 & H3 & H4).
  rewrite H1, H2, H3, H4, IH1, IH2. done.
Qed.

(** The cast succeeds exactly on the valid ids. *)
Lemma castObjectId_valid (s : string) :
  isObjectId s = true ↔ is_Some (castObjectId s).
Proof.
  unfold isObjectId, castObjectId.
  destruct (_ && _); cbn; [split; eauto|].
  destruct (String.length s =? 12)%nat; cbn; split; eauto.
  - discriminate.
  - intros [? [=]].
Qed.

Lemma castObjectId_None (s : string) :
  isObjectId s = false ↔ castObjectId s = None.
Proof.
  unfold isObjectId, castObjectId.
  destruct (_ && _); cbn; [done|].
  by destruct (String.length s =? 12)%nat.
Qed.

Lemma isObjectId_cast (s : string) :
  isObjectId s = match castObjectId s with Some _ => true | None => false end.
Proof.
  unfold isObjectId, castObjectId.
  destruct (_ && _); cbn; [done|].
  by destruct (String.length s =? 12)%nat.
Qed.

(** The result of a cast is an id in the stored form: casting it again
    gives it back. *)
Lemma castObjectId_idemp (s o : string) :
  castObjectId s = Some o → castObjectId o = Some o ∧ isObjectId o = true.
Proof.
  intros Hs.
  assert (Ho : castObjectId o = Some o).
  { unfold castObjectId in Hs.
    destruct ((String.length s =? 24)%nat && all_chars is_hex_digit s) eqn:E.
    - injection Hs as <-. apply andb_true_iff in E as [El Eh].
      destruct (map_chars_lower_hex s Eh) as [H1 H2].
      unfold castObjectId. by rewrite length_map_chars, El, H1, H2.
    - destruct (String.length s =? 12)%nat eqn:El; [|done].
      injection Hs as <-. apply Nat.eqb_eq in El.
      destruct (hex_of_bytes_lower_hex s) as [H1 H2].
      unfold castObjectId. by rewrite length_hex_of_bytes, El, H1, H2. }
  split; [done|]. apply castObjectId_valid. by rewrite Ho.
Qed.

(** Either case spells the same id; 12 characters are an id as well;
    anything else is none. *)
Lemma castObjectId_samples :
  castObjectId Sample.PID = Some Sample.pid ∧
  castObjectId Sample.pid = Some Sample.pid ∧
  castObjectId Sample.twelve = Some "6162636465666768696a6b6c" ∧
  castObjectId "42" = None ∧
  castObjectId "60000000000000000000abcg" = None.
Proof. repeat split; vm_compute; reflexivity. Qed.

(** ** Like lists *)

Section LikeLists.

Variable u : string.

Lemma likers_cons (x : LikeDoc) (l : list LikeDoc) :
  likers (x :: l) = liker_id x :: likers l.
Proof. reflexivity. Qed.

Lemma likers_filter_nil (l : list LikeDoc) :
  length (filter (λ liker, liker_id liker = u) l) = 0%nat ↔ u ∉ likers l.
Proof.
  induction l as [|x l IH].
  - split; [intros _; apply not_elem_of_nil | done].
  - rewrite filter_cons, likers_cons, not_elem_of_cons.
    destruct (decide (liker_id x = u)) as [->|Hne]; simpl.
    + split; [discriminate | intros [? _]; congruence].
    + rewrite IH. split; [intros ?; split; [congruence | done] | tauto].
Qed.

Lemma filter_other_id (l : list LikeDoc) :
  u ∉ likers l → filter (λ liker, liker_id liker ≠ u) l = l.
Proof.
  induction l as [|x l IH]; [done|].
  rewrite likers_cons, not_elem_of_cons. intros [Hx Hl].
  rewrite filter_cons_True by congruence. by rewrite IH.
Qed.

Lemma likers_filter_other (l : list LikeDoc) :
  u ∉ likers (filter (λ liker, liker_id liker ≠ u) l).
Proof.
  unfold likers. rewrite list_elem_of_fmap. intros (x & Hx & Hin).
  apply list_elem_of_filter in Hin as [Hne _]. congruence.
Qed.

Lemma likers_filter_sublist (P : LikeDoc → Prop) `{!∀ x, Decision (P x)}
      (l : list LikeDoc) :
  likers (filter P l) `sublist_of` likers l.
Proof. unfold likers. apply fmap_sublist, sublist_filter. Qed.

Lemma NoDup_likers_filter (P : LikeDoc → Prop) `{!∀ x, Decision (P x)}
      (l : list LikeDoc) :
  NoDup (likers l) → NoDup (likers (filter P l)).
Proof.
  intros Hnd. eapply sublist_NoDup; [exact Hnd|].
  apply likers_filter_sublist.
Qed.

(** With no duplicate liker, the entries of [u] are a single one. *)
Lemma filter_same_id (l : list LikeDoc) :
  NoDup (likers l) → u ∈ likers l →
  filter (λ liker, liker_id liker = u) l = [{| liker_id := u |}].
Proof.
  induction l as [|[x] l IH].
  - intros _ H. by apply elem_of_nil in H.
  - rewrite likers_cons, NoDup_cons, elem_of_cons. cbn [liker_id].
    intros [Hx Hl] Hin.
    rewrite filter_cons; cbn [liker_id]. destruct (decide (x = u)) as [->|Hne].
    + f_equal. apply length_zero_iff_nil. by apply likers_filter_nil.
    + destruct Hin as [->|Hin]; [done|]. by apply IH.
Qed.

Lemma unlike_like_perm (l : list LikeDoc) :
  NoDup (likers l) → u ∈ likers l →
  {| liker_id := u |} :: filter (λ liker, liker_id liker ≠ u) l ≡ₚ l.
Proof.
  intros Hnd Hin.
  rewrite <- (filter_app_complement (λ liker, liker_id liker = u) l) at 2.
  by rewrite filter_same_id.
Qed.

End LikeLists.

(** ** ToggleLike *)

(** The like list [ToggleLike] writes for caller [u]. *)
Lemma ToggleLike_found (d : Db) (req : Request) (oid : string)
      (p : PostDoc) :
  castObjectId (params_id req) = Some oid →
  posts d !! oid = Some p →
  serve (ToggleLike req) d =
  let p' :=
    if (length (filter (λ liker, liker_id liker = user_id req)
                       (post_likes p)) =? 0)%nat
    then set_likes ({| liker_id := user_id req |} :: post_likes p) p
    else set_likes (filter (λ liker, liker_id liker ≠ user_id req)
                           (post_likes p)) p in
  {| db := {| users := users d; posts := <[post_id p := p']> (posts d) |};
     sent := [{| status := 200; body := Json_likes (post_likes p') |}];
     console := [] |}.
Proof.
  intros Hid Hp. unfold_handler. rewrite Hid. cbn. rewrite Hp. cbn.
  by destruct (_ =? _)%nat.
Qed.

Lemma ToggleLike_like (d : Db) (req : Request) (p : PostDoc) :
  stored d (params_id req) p →
  user_id req ∉ likers (post_likes p) →
  let p' := set_likes ({| liker_id := user_id req |} :: post_likes p) p in
  serve (ToggleLike req) d =
  {| db := {| users := users d;
              posts := <[post_id p := p']> (posts d) |};
     sent := [{| status := 200; body := Json_likes (post_likes p') |}];
     console := [] |}.
Proof.
  intros (Hid & Hp) Hnot. rewrite (ToggleLike_found d req _ p Hid Hp).
  apply likers_filter_nil in Hnot. rewrite Hnot. reflexivity.
Qed.

Lemma ToggleLike_unlike (d : Db) (req : Request) (p : PostDoc) :
  stored d (params_id req) p →
  user_id req ∈ likers (post_likes p) →
  let p' := set_likes (filter (λ liker, liker_id liker ≠ user_id req)
                              (post_likes p)) p in
  serve (ToggleLike req) d =
  {| db := {| users := users d;
              posts := <[post_id p := p']> (posts d) |};
     sent := [{| status := 200; body := Json_likes (post_likes p') |}];
     console := [] |}.
Proof.
  intros (Hid & Hp) Hin. rewrite (ToggleLike_found d req _ p Hid Hp).
  destruct (length _ =? 0)%nat eqn:E.
  - apply Nat.eqb_eq, likers_filter_nil in E. done.
  - reflexivity.
Qed.

Lemma db_eta (d : Db) : {| users := users d; posts := posts d |} = d.
Proof. by destruct d. Qed.

(** C1 (as the code has it): two successive [ToggleLike] calls by the same
    caller on the same stored post give back the store unchanged, and so
    the like list with its contents and order, when the caller had not
    liked the post.  When the caller had liked it, the two calls leave the
    caller's like at the head, followed by the other likes in their
    original order: with no duplicate liker this is a permutation of the
    original list, and it is the original list exactly when the caller's
    like was already the first one. *)
Theorem ToggleLike_twice (d : Db) (req : Request) (p : PostDoc) :
  stored d (params_id req) p →
  let d2 := db (serve (ToggleLike req) (db (serve (ToggleLike req) d))) in
  let moved :=
    {| liker_id := user_id req |}
      :: filter (λ liker, liker_id liker ≠ user_id req) (post_likes p) in
  (user_id req ∉ likers (post_likes p) → d2 = d) ∧
  (user_id req ∈ likers (post_likes p) →
     stored d2 (params_id req) (set_likes moved p) ∧
     (NoDup (likers (post_likes p)) →
        moved ≡ₚ post_likes p ∧
        (moved = post_likes p ↔
         head (post_likes p) = Some {| liker_id := user_id req |}))).
Proof.
  intros Hst d2 moved. pose proof Hst as (Hid & Hp). split.
  - intros Hnot. subst d2.
    rewrite (ToggleLike_like d req p Hst Hnot). cbn [db].
    set (p1 := set_likes _ p).
    assert (Hst1 : stored {| users := users d;
                             posts := <[post_id p := p1]> (posts d) |}
                          (params_id req) p1).
    { split; [done|]. cbn [posts]. apply lookup_insert_eq. }
    assert (Hin1 : user_id req ∈ likers (post_likes p1)).
    { subst p1. cbn [set_likes post_likes]. rewrite likers_cons.
      apply elem_of_cons. by left. }
    rewrite (ToggleLike_unlike _ req p1 Hst1 Hin1). cbn [db users posts].
    change (post_id p1) with (post_id p). rewrite insert_insert_eq.
    replace (set_likes _ p1) with p.
    + rewrite insert_id by done. apply db_eta.
    + subst p1. cbn [set_likes post_likes post_id post_text post_name
                     post_avatar post_user post_comments post_date].
      rewrite filter_cons_False by (cbn; tauto).
      rewrite filter_other_id by done. by destruct p.
  - intros Hin. subst d2.
    rewrite (ToggleLike_unlike d req p Hst Hin). cbn [db].
    set (p1 := set_likes _ p).
    assert (Hst1 : stored {| users := users d;
                             posts := <[post_id p := p1]> (posts d) |}
                          (params_id req) p1).
    { split; [done|]. cbn [posts]. apply lookup_insert_eq. }
    assert (Hnot1 : user_id req ∉ likers (post_likes p1)).
    { subst p1. cbn [set_likes post_likes]. apply likers_filter_other. }
    rewrite (ToggleLike_like _ req p1 Hst1 Hnot1). cbn [db users posts].
    change (post_id p1) with (post_id p). rewrite insert_insert_eq. split.
    + split; [done|].
      cbn [posts set_likes post_id]. rewrite lookup_insert_eq. by subst p1.
    + intros Hnd. split; [by apply unlike_like_perm|].
      subst moved. destruct (post_likes p) as [|[x] l] eqn:El.
      { by apply elem_of_nil in Hin. }
      rewrite likers_cons, NoDup_cons in Hnd. destruct Hnd as [Hx Hl].
      cbn [liker_id head] in *. split.
      * rewrite filter_cons. cbn [liker_id].
        destruct (decide (x ≠ user_id req)) as [Hne|Heq].
        -- intros [= E _]. congruence.
        -- intros _. f_equal. f_equal. by destruct (decide (x = user_id req)).
      * intros [= ->]. rewrite filter_cons_False by (cbn; tauto).
        by rewrite filter_other_id.
Qed.

(** The sample store [db3] is one the routes bring about, and holds the
    sample post with Bob's like before Alice's. *)
Lemma Sample_db3_reachable : reachable Sample.db3.
Proof. repeat apply reach_serve. apply reach_init. Qed.


Lemma Sample_post3_stored : stored Sample.db3 Sample.pid Sample.post3.
Proof. split; vm_compute; reflexivity. Qed.

Lemma ToggleLike_twice_witness :
  let req := Sample.request Sample.alice Sample.pid None in
  stored Sample.db3 (params_id req) Sample.post3 ∧
  stored (db (serve (ToggleLike req) (db (serve (ToggleLike req) Sample.db3))))
         Sample.pid
         (set_likes [{| liker_id := Sample.alice |};
                     {| liker_id := Sample.bob |}] Sample.post3).
Proof.
  intros req. split; [exact Sample_post3_stored|].
  refine (proj1 (proj2 (ToggleLike_twice Sample.db3 req Sample.post3
                          Sample_post3_stored) _)).
  vm_compute. apply list_elem_of_In. right. left. reflexivity.
Defined.

(** C1, as stated, fails: in the sample store Bob's like precedes Alice's;
    after Alice toggles twice her like precedes Bob's. *)
Lemma ToggleLike_twice_reorders :
  let req := Sample.request Sample.alice Sample.pid None in
  let d2 := db (serve (ToggleLike req) (db (serve (ToggleLike req) Sample.db3))) in
  likers <$> (post_likes <$> posts Sample.db3 !! Sample.pid)
    = Some [Sample.bob; Sample.alice] ∧
  likers <$> (post_likes <$> posts d2 !! Sample.pid)
    = Some [Sample.alice; Sample.bob] ∧
  (post_likes <$> posts d2 !! Sample.pid)
    ≠ (post_likes <$> posts Sample.db3 !! Sample.pid).
Proof.
  intros req d2. split; [|split].
  - vm_compute. reflexivity.
  - vm_compute. reflexivity.
  - vm_compute. discriminate.
Qed.

(** ** The like invariant *)

Lemma serve_posts_change (rt : Route) (env : Env) (req : Request) (d : Db) :
  posts_change (posts d) rt (posts (db (serve (router rt env req) d))).
Proof.
  destruct rt; cbn [router]; unfold_handler.
  - (* CreatePost *)
    destruct (negb _); [apply change_none|].
    destruct (castObjectId _) as [oid|]; [|apply change_none]. cbn.
    destruct (users d !! _); [|apply change_none]. cbn.
    destruct (posts d !! new_oid env) eqn:E; [apply change_none|]. cbn.
    by apply change_create.
  - apply change_none.
  - (* GetPost *)
    destruct (castObjectId _) as [oid|]; [|apply change_none]. cbn.
    destruct (posts d !! _); apply change_none.
  - (* DeletePost *)
    destruct (castObjectId _) as [oid|]; [|apply change_none]. cbn.
    destruct (posts d !! _) eqn:E; [|apply change_none].
    destruct (decide _); [apply change_none|]. cbn.
    by eapply change_remove.
  - (* ToggleLike *)
    destruct (castObjectId _) as [oid|]; [|apply change_none]. cbn.
    destruct (posts d !! _) as [p|] eqn:E; [|apply change_none]. cbn.
    destruct (length _ =? 0)%nat eqn:El; cbn.
    + eapply change_like; [exact E|].
      by apply likers_filter_nil, Nat.eqb_eq.
    + by eapply change_unlike.
  - (* AddComment *)
    destruct (negb _); [apply change_none|].
    destruct (castObjectId (user_id req)) as [uid|]; [|apply change_none]. cbn.
    destruct (castObjectId (params_id req)) as [oid|]; [|apply change_none]. cbn.
    destruct (users d !! _); [|apply change_none]. cbn.
    destruct (posts d !! _) eqn:E; [|apply change_none]. cbn.
    by eapply change_comments.
  - (* DeleteComment *)
    destruct (castObjectId _) as [oid|]; [|apply change_none]. cbn.
    destruct (posts d !! _) eqn:E; [|apply change_none].
    destruct (negb _); [apply change_none|].
    destruct (_ !! 0%nat); [|apply change_none]. cbn.
    destruct (decide _); [apply change_none|]. cbn.
    by eapply change_comments.
Qed.


Lemma posts_change_ok (ps ps' : gmap string PostDoc) (rt : Route) :
  posts_change ps rt ps' → store_ok ps → store_ok ps'.
Proof.
  intros Hch Hok.
  destruct Hch as [rt|p Hnone Hl|k p Hp|k p u Hp Hu|k p u Hp|rt k p c Hp];
    try done; intros id q Hq.
  - apply lookup_insert_Some in Hq as [[<- <-]|[_ Hq]]; [|by apply Hok].
    split; [done|]. rewrite Hl. constructor.
  - apply lookup_delete_Some in Hq as [_ Hq]. by apply Hok.
  - destruct (Hok k p Hp) as [Hk Hnd].
    apply lookup_insert_Some in Hq as [[<- <-]|[_ Hq]]; [|by apply Hok].
    split; [done|]. cbn [set_likes post_likes]. rewrite likers_cons.
    by apply NoDup_cons.
  - destruct (Hok k p Hp) as [Hk Hnd].
    apply lookup_insert_Some in Hq as [[<- <-]|[_ Hq]]; [|by apply Hok].
    split; [done|]. cbn [set_likes post_likes]. by apply NoDup_likers_filter.
  - destruct (Hok k p Hp) as [Hk Hnd].
    apply lookup_insert_Some in Hq as [[<- <-]|[_ Hq]]; [|by apply Hok].
    done.
Qed.

Lemma reachable_store_ok (d : Db) : reachable d → store_ok (posts d).
Proof.
  induction 1 as [us|d us _ IH|d rt env req _ IH].
  - intros id p Hp. cbn in Hp. by rewrite lookup_empty in Hp.
  - exact IH.
  - eapply posts_change_ok; [apply serve_posts_change | exact IH].
Qed.

(** Only the like toggle touches the like list of a post that stays. *)
Lemma posts_change_likes (ps ps' : gmap string PostDoc) (rt : Route)
      (id : string) (p p' : PostDoc) :
  posts_change ps rt ps' → store_ok ps → rt ≠ PUT_tlike →
  ps !! id = Some p → ps' !! id = Some p' →
  post_likes p' = post_likes p.
Proof.
  intros Hch Hok Hrt Hp Hp'.
  destruct Hch as [rt|q Hnone Hl|k q Hq|k q u Hq Hu|k q u Hq|rt k q c Hq];
    try done.
  - congruence.
  - apply lookup_insert_Some in Hp' as [[Hk <-]|[_ Hp']]; congruence.
  - apply lookup_delete_Some in Hp' as [_ Hp']. congruence.
  - destruct (Hok k q Hq) as [Hk _].
    apply lookup_insert_Some in Hp' as [[Hid <-]|[_ Hp']]; [|congruence].
    cbn [set_comments post_likes]. congruence.
Qed.

(** C2: in every store the routes bring about no user id occurs twice in
    a like list, and every route keeps it so; no route but the like toggle
    changes the like list of a post; and the toggle, on a post the caller
    has liked, removes the caller's id instead of adding it again. *)
Theorem likes_unique (d : Db) :
  reachable d →
  (∀ id p, posts d !! id = Some p → NoDup (likers (post_likes p))) ∧
  (∀ rt env req id p,
     posts (db (serve (router rt env req) d)) !! id = Some p →
     NoDup (likers (post_likes p))) ∧
  (∀ rt env req id p p',
     rt ≠ PUT_tlike → posts d !! id = Some p →
     posts (db (serve (router rt env req) d)) !! id = Some p' →
     post_likes p' = post_likes p) ∧
  (∀ req p,
     stored d (params_id req) p → user_id req ∈ likers (post_likes p) →
     ∃ p', stored (db (serve (ToggleLike req) d)) (params_id req) p' ∧
           post_likes p' =
             filter (λ liker, liker_id liker ≠ user_id req) (post_likes p) ∧
           (user_id req ∉ likers (post_likes p')) ∧
           length (post_likes p') < length (post_likes p)).
Proof.
  intros Hr. pose proof (reachable_store_ok d Hr) as Hok.
  split; [|split; [|split]].
  - intros id p Hp. by apply (Hok id p).
  - intros rt env req id p Hp.
    by apply (reachable_store_ok _ (reach_serve d rt env req Hr) id p).
  - intros rt env req id p p' Hrt Hp Hp'.
    eapply posts_change_likes; [apply serve_posts_change|done..].
  - intros req p Hst Hin.
    rewrite (ToggleLike_unlike d req p Hst Hin). cbn [db].
    destruct Hst as (Hid & Hp).
    exists (set_likes (filter (λ liker, liker_id liker ≠ user_id req)
                              (post_likes p)) p).
    split; [|split; [|split]].
    + split; [done|]. cbn [posts set_likes post_id]. apply lookup_insert_eq.
    + reflexivity.
    + cbn [set_likes post_likes]. apply likers_filter_other.
    + cbn [set_likes post_likes].
      apply list_elem_of_fmap in Hin as (x & Hx & Hin).
      eapply length_filter_lt; [exact Hin|]. cbn. intros Hne. congruence.
Qed.

Lemma likes_unique_witness :
  reachable Sample.db3 ∧
  NoDup (likers (post_likes Sample.post3)).
Proof.
  assert (Hr : reachable Sample.db3).
  { repeat apply reach_serve. apply reach_init. }
  split; [exact Hr|].
  apply (proj1 (likes_unique Sample.db3 Hr) Sample.pid).
  vm_compute. reflexivity.
Defined.

(** ** Validation *)

Lemma validationResult_ok (req : Request) (t : string) :
  body_text req = Some t → t ≠ "" → validationResult req = [].
Proof.
  intros Ht Hne. unfold validationResult. rewrite Ht.
  by destruct (decide (t = "")).
Qed.

Lemma validationResult_empty_text (req : Request) :
  body_text req = None ∨ body_text req = Some "" →
  validationResult req =
  [{| fe_value := body_text req; fe_msg := "Text is required";
      fe_param := "text"; fe_location := "body" |}].
Proof. intros [H|H]; unfold validationResult; by rewrite H. Qed.

Lemma text_of_Some (req : Request) (t : string) :
  body_text req = Some t → text_of req = t.
Proof. intros H. unfold text_of. by rewrite H. Qed.

(** C3 (what the code does): when the id denotes no stored post, because
    it cannot be cast to an ObjectId or because no post is stored under
    the id it is cast to, [ToggleLike] answers 500 'Server Error', and so
    does [AddComment] with a non-empty text; neither answers 404. *)
Theorem missing_post_server_error (env : Env) (req : Request) (d : Db) :
  (∀ oid, castObjectId (params_id req) = Some oid → posts d !! oid = None) →
  sent (serve (ToggleLike req) d)
    = [{| status := 500; body := Text "Server Error" |}] ∧
  (∀ t, body_text req = Some t → t ≠ "" →
        sent (serve (AddComment env req) d)
          = [{| status := 500; body := Text "Server Error" |}]).
Proof.
  intros Hmiss. split.
  - unfold_handler. destruct (castObjectId (params_id req)) as [oid|]; [|done].
    cbn. by rewrite (Hmiss oid eq_refl).
  - intros t Ht Hne. unfold AddComment.
    rewrite (validationResult_ok req t Ht Hne). cbn [isEmpty negb].
    unfold_handler.
    destruct (castObjectId (user_id req)) as [uid|]; [|done]. cbn.
    destruct (castObjectId (params_id req)) as [oid|]; [|done]. cbn.
    destruct (users d !! _); [|done]. cbn.
    by rewrite (Hmiss oid eq_refl).
Qed.

Lemma missing_post_server_error_witness :
  let req := Sample.request Sample.alice Sample.nobody (Some "hi") in
  castObjectId (params_id req) = Some Sample.nobody ∧
  posts Sample.db3 !! Sample.nobody = None ∧
  sent (serve (ToggleLike req) Sample.db3)
    = [{| status := 500; body := Text "Server Error" |}] ∧
  sent (serve (AddComment Sample.env2 req) Sample.db3)
    = [{| status := 500; body := Text "Server Error" |}].
Proof.
  intros req.
  assert (Hcast : castObjectId (params_id req) = Some Sample.nobody).
  { vm_compute. reflexivity. }
  assert (Hnone : posts Sample.db3 !! Sample.nobody = None).
  { vm_compute. reflexivity. }
  split; [exact Hcast|]. split; [exact Hnone|].
  assert (Hmiss : ∀ oid, castObjectId (params_id req) = Some oid →
                         posts Sample.db3 !! oid = None).
  { intros oid Hoid. rewrite Hcast in Hoid. injection Hoid as <-.
    exact Hnone. }
  destruct (missing_post_server_error Sample.env2 req Sample.db3 Hmiss)
    as [Ht Ha].
  split; [exact Ht|]. apply (Ha "hi"); [reflexivity | discriminate].
Defined.

(** ** GetPost, evaluated *)

Lemma GetPost_found (req : Request) (d : Db) (oid : string) (p : PostDoc) :
  castObjectId (params_id req) = Some oid → posts d !! oid = Some p →
  serve (GetPost req) d =
  {| db := d; sent := [{| status := 200; body := Json_post p |}];
     console := [] |}.
Proof. intros Hid Hp. unfold_handler. rewrite Hid. cbn. by rewrite Hp. Qed.

Lemma GetPost_absent (req : Request) (d : Db) (oid : string) :
  castObjectId (params_id req) = Some oid → posts d !! oid = None →
  serve (GetPost req) d =
  {| db := d;
     sent := [{| status := 404; body := Json_msg "Post not found" |}];
     console := [] |}.
Proof. intros Hid Hp. unfold_handler. rewrite Hid. cbn. by rewrite Hp. Qed.

Lemma GetPost_uncastable (req : Request) (d : Db) :
  castObjectId (params_id req) = None →
  GetPost req {| db := d; sent := []; console := [] |} =
  (inl HeadersSentError,
   {| db := d;
      sent := [{| status := 404; body := Json_msg "Post not found" |};
               {| status := 500; body := Text "Server Error" |}];
      console := [message CastError] |}).
Proof. intros Hid. unfold_handler. by rewrite Hid. Qed.

(** ** CreatePost *)

(** C4: with an empty (or absent) text [CreatePost] answers 400 with the
    array of validation errors and leaves the store as it was; with a
    non-empty text and a caller found in the user collection it stores,
    under the id the store assigns, and returns the post with the given
    text, the caller's name and avatar, the caller's id as owner, and no
    likes and no comments. *)
Theorem CreatePost_spec (env : Env) (req : Request) (d : Db) :
  (body_text req = None ∨ body_text req = Some "" →
   serve (CreatePost env req) d =
   {| db := d;
      sent := [{| status := 400;
                  body := Json_errors
                    [{| fe_value := body_text req;
                        fe_msg := "Text is required";
                        fe_param := "text"; fe_location := "body" |}] |}];
      console := [] |}) ∧
  (∀ text uid u,
     body_text req = Some text → text ≠ "" →
     castObjectId (user_id req) = Some uid → users d !! uid = Some u →
     posts d !! new_oid env = None →
     let post :=
       {| post_id := new_oid env; post_text := text;
          post_name := user_name u; post_avatar := user_avatar u;
          post_user := uid; post_likes := []; post_comments := [];
          post_date := now env |} in
     serve (CreatePost env req) d =
     {| db := {| users := users d;
                 posts := <[new_oid env := post]> (posts d) |};
        sent := [{| status := 200; body := Json_post post |}];
        console := [] |} ∧
     posts (db (serve (CreatePost env req) d)) !! new_oid env = Some post ∧
     (∀ req', castObjectId (params_id req') = Some (new_oid env) →
              sent (serve (GetPost req') (db (serve (CreatePost env req) d)))
                = [{| status := 200; body := Json_post post |}])).
Proof.
  split.
  - intros Hempty. unfold CreatePost.
    rewrite (validationResult_empty_text req Hempty). reflexivity.
  - intros text uid u Ht Hne Hid Hu Hfresh post.
    assert (Hrun : serve (CreatePost env req) d =
      {| db := {| users := users d;
                  posts := <[new_oid env := post]> (posts d) |};
         sent := [{| status := 200; body := Json_post post |}];
         console := [] |}).
    { unfold CreatePost. rewrite (validationResult_ok req text Ht Hne).
      cbn [isEmpty negb]. unfold_handler. rewrite Hid. cbn. rewrite Hu. cbn.
      rewrite Hfresh. cbn. rewrite (text_of_Some req text Ht). reflexivity. }
    split; [exact Hrun|]. rewrite Hrun. cbn [db posts].
    split; [apply lookup_insert_eq|].
    intros req' Hreq'.
    rewrite (GetPost_found req' _ (new_oid env) post); [done|done|].
    cbn [posts]. apply lookup_insert_eq.
Qed.

Lemma CreatePost_spec_witness :
  let req := Sample.request Sample.alice "" (Some "hello") in
  castObjectId (user_id req) = Some Sample.alice ∧
  users Sample.db0 !! Sample.alice
    = Some {| user_name := "Alice"; user_avatar := "a.png" |} ∧
  posts (db (serve (CreatePost Sample.env1 req) Sample.db0)) !! Sample.pid =
  Some {| post_id := Sample.pid; post_text := "hello"; post_name := "Alice";
          post_avatar := "a.png"; post_user := Sample.alice;
          post_likes := []; post_comments := []; post_date := 100%N |}.
Proof.
  intros req.
  assert (Hc : castObjectId (user_id req) = Some Sample.alice).
  { vm_compute. reflexivity. }
  assert (Hu : users Sample.db0 !! Sample.alice
               = Some {| user_name := "Alice"; user_avatar := "a.png" |}).
  { vm_compute. reflexivity. }
  split; [exact Hc|]. split; [exact Hu|].
  refine (proj1 (proj2 (proj2 (CreatePost_spec Sample.env1 req Sample.db0)
                          "hello" _ _ _ _ Hc Hu _))).
  - reflexivity.
  - discriminate.
  - vm_compute. reflexivity.
Defined.

(** ** GetPost and DeletePost *)

(** C8: [GetPost] returns the stored post for an id that denotes one;
    the client receives 404 {msg: 'Post not found'} when no post is stored
    under the id and when the id is not a well-formed identifier.  In the
    latter case the 404 is the one response that reaches the client: the
    send the handler attempts after it throws and writes nothing. *)
Theorem GetPost_spec (req : Request) (d : Db) :
  (∀ p, stored d (params_id req) p →
        serve (GetPost req) d =
        {| db := d; sent := [{| status := 200; body := Json_post p |}];
           console := [] |}) ∧
  (∀ oid, castObjectId (params_id req) = Some oid → posts d !! oid = None →
          serve (GetPost req) d =
          {| db := d;
             sent := [{| status := 404; body := Json_msg "Post not found" |}];
             console := [] |}) ∧
  (isObjectId (params_id req) = false →
   delivered (serve (GetPost req) d)
     = Some {| status := 404; body := Json_msg "Post not found" |} ∧
   fst (GetPost req {| db := d; sent := []; console := [] |})
     = inl HeadersSentError ∧
   db (serve (GetPost req) d) = d).
Proof.
  split; [|split].
  - intros p (Hid & Hp). by apply (GetPost_found req d (post_id p)).
  - intros oid Hid Hp. by apply (GetPost_absent req d oid).
  - intros Hid%castObjectId_None. unfold delivered, serve.
    by rewrite (GetPost_uncastable req d Hid).
Qed.

Lemma GetPost_spec_witness :
  let req := Sample.request Sample.alice "42" None in
  isObjectId (params_id req) = false ∧
  delivered (serve (GetPost req) Sample.db3)
    = Some {| status := 404; body := Json_msg "Post not found" |}.
Proof.
  intros req.
  assert (Hid : isObjectId (params_id req) = false) by reflexivity.
  split; [exact Hid|].
  exact (proj1 (proj2 (proj2 (GetPost_spec req Sample.db3)) Hid)).
Defined.

(** A 12-character id is looked up like any other: one 404, no error. *)
Lemma GetPost_twelve_characters :
  GetPost (Sample.request Sample.alice Sample.twelve None)
          {| db := Sample.db3; sent := []; console := [] |} =
  (inr tt,
   {| db := Sample.db3;
      sent := [{| status := 404; body := Json_msg "Post not found" |}];
      console := [] |}).
Proof. vm_compute. reflexivity. Qed.

(** The other spelling of a stored id finds the post. *)
Lemma GetPost_other_spelling :
  sent (serve (GetPost (Sample.request Sample.bob Sample.PID None))
              Sample.db3)
    = [{| status := 200; body := Json_post Sample.post3 |}].
Proof. vm_compute. reflexivity. Qed.

(** C5: [DeletePost] answers 404 when no post is stored under the id and
    when the id is not a well-formed identifier; for a stored post it
    answers 401 with a message and keeps the post when the caller is not
    its owner; for the owner it removes the post and answers with a
    confirmation, and [GetPost] on that id then answers 404. *)
Theorem DeletePost_spec (req : Request) (d : Db) :
  (∀ oid, castObjectId (params_id req) = Some oid → posts d !! oid = None →
          serve (DeletePost req) d =
          {| db := d;
             sent := [{| status := 404; body := Json_msg "Post not found" |}];
             console := [] |}) ∧
  (isObjectId (params_id req) = false →
   db (serve (DeletePost req) d) = d ∧
   delivered (serve (DeletePost req) d)
     = Some {| status := 404; body := Json_msg "Post not found" |}) ∧
  (∀ p, stored d (params_id req) p → post_user p ≠ user_id req →
        serve (DeletePost req) d =
        {| db := d;
           sent := [{| status := 401; body := Json_msg "Not your post" |}];
           console := [] |}) ∧
  (∀ p, stored d (params_id req) p → post_user p = user_id req →
        let d' := {| users := users d;
                     posts := delete (post_id p) (posts d) |} in
        serve (DeletePost req) d =
        {| db := d';
           sent := [{| status := 200; body := Json_msg "Post deleted" |}];
           console := [] |} ∧
        ∀ req', castObjectId (params_id req') = castObjectId (params_id req) →
                sent (serve (GetPost req') d')
                  = [{| status := 404; body := Json_msg "Post not found" |}]).
Proof.
  split; [|split; [|split]].
  - intros oid Hid Hp. unfold_handler. rewrite Hid. cbn. by rewrite Hp.
  - intros Hid%castObjectId_None. unfold delivered. unfold_handler.
    rewrite Hid. cbn. split; [by destruct d | reflexivity].
  - intros p (Hid & Hp) Hne. unfold_handler. rewrite Hid. cbn.
    rewrite Hp. by destruct (decide (post_user p ≠ user_id req)).
  - intros p (Hid & Hp) Heq d'. split.
    + unfold_handler. rewrite Hid. cbn. rewrite Hp.
      by destruct (decide (post_user p ≠ user_id req)).
    + intros req' Hreq'.
      rewrite (GetPost_absent req' d' (post_id p)); [done|congruence|].
      subst d'. cbn [posts]. apply lookup_delete_eq.
Qed.

Lemma DeletePost_spec_witness :
  let req := Sample.request Sample.alice Sample.PID None in
  stored Sample.db3 (params_id req) Sample.post3 ∧
  post_user Sample.post3 = user_id req ∧
  sent (serve (DeletePost req) Sample.db3)
    = [{| status := 200; body := Json_msg "Post deleted" |}].
Proof.
  intros req.
  assert (Hst : stored Sample.db3 (params_id req) Sample.post3).
  { split; vm_compute; reflexivity. }
  assert (Hown : post_user Sample.post3 = user_id req) by reflexivity.
  split; [exact Hst|]. split; [exact Hown|].
  destruct (proj2 (proj2 (proj2 (DeletePost_spec req Sample.db3)))
              Sample.post3 Hst Hown) as [Hrun _].
  rewrite Hrun. reflexivity.
Defined.

(** ** AddComment *)

(** C9: with an empty (or absent) text [AddComment] answers 400 with the
    validation errors and leaves the store, and so the post, as it was;
    with a non-empty text, a caller found in the user collection and a
    stored post, it puts a comment with that text, the caller's name and
    avatar and the caller's id as owner at the head of the post's
    comments, saves the post, and returns the new comment list, the new
    comment first. *)
Theorem AddComment_spec (env : Env) (req : Request) (d : Db) :
  (body_text req = None ∨ body_text req = Some "" →
   serve (AddComment env req) d =
   {| db := d;
      sent := [{| status := 400;
                  body := Json_errors
                    [{| fe_value := body_text req;
                        fe_msg := "Text is required";
                        fe_param := "text"; fe_location := "body" |}] |}];
      console := [] |}) ∧
  (∀ text uid u p,
     body_text req = Some text → text ≠ "" →
     castObjectId (user_id req) = Some uid → users d !! uid = Some u →
     stored d (params_id req) p →
     let comment :=
       {| comment_id := new_oid env; comment_text := text;
          comment_name := user_name u; comment_avatar := user_avatar u;
          comment_user := uid; comment_date := now env |} in
     let post := set_comments (comment :: post_comments p) p in
     serve (AddComment env req) d =
     {| db := {| users := users d;
                 posts := <[post_id p := post]> (posts d) |};
        sent := [{| status := 200;
                    body := Json_comments (comment :: post_comments p) |}];
        console := [] |} ∧
     stored (db (serve (AddComment env req) d)) (params_id req) post ∧
     head (post_comments post) = Some comment).
Proof.
  split.
  - intros Hempty. unfold AddComment.
    rewrite (validationResult_empty_text req Hempty). reflexivity.
  - intros text uid u p Ht Hne Hid Hu (Hpid & Hp) comment post.
    assert (Hrun : serve (AddComment env req) d =
      {| db := {| users := users d;
                  posts := <[post_id p := post]> (posts d) |};
         sent := [{| status := 200;
                     body := Json_comments (comment :: post_comments p) |}];
         console := [] |}).
    { unfold AddComment. rewrite (validationResult_ok req text Ht Hne).
      cbn [isEmpty negb]. unfold_handler. rewrite Hid. cbn. rewrite Hpid. cbn.
      rewrite Hu. cbn. rewrite Hp. cbn.
      rewrite (text_of_Some req text Ht). reflexivity. }
    split; [exact Hrun|]. rewrite Hrun. cbn [db]. split; [|done].
    split; [done|]. cbn [posts]. apply lookup_insert_eq.
Qed.


Lemma AddComment_spec_witness :
  let req := Sample.request Sample.bob Sample.pid (Some "nice") in
  stored Sample.db3 (params_id req) Sample.post3 ∧
  stored (db (serve (AddComment Sample.env2 req) Sample.db3))
         (params_id req) Sample.post4.
Proof.
  intros req.
  assert (Hst : stored Sample.db3 (params_id req) Sample.post3).
  { split; vm_compute; reflexivity. }
  split; [exact Hst|].
  refine (proj1 (proj2 (proj2 (AddComment_spec Sample.env2 req Sample.db3)
                   "nice" Sample.bob
                   {| user_name := "Bob"; user_avatar := "b.png" |}
                   Sample.post3 _ _ _ _ Hst))).
  - reflexivity.
  - discriminate.
  - vm_compute. reflexivity.
  - vm_compute. reflexivity.
Defined.

(** ** DeleteComment *)

(** The handler on a stored post, before the count of matches is known. *)
Lemma DeleteComment_found (req : Request) (d : Db) (p : PostDoc) :
  stored d (params_p_id req) p →
  let matched := filter (λ cmt, comment_id cmt = params_c_id req)
                        (post_comments p) in
  (length matched ≠ 1%nat →
   serve (DeleteComment req) d =
   {| db := d;
      sent := [{| status := 404; body := Json_msg "Comment not found" |}];
      console := [] |}) ∧
  (∀ c, matched = [c] → comment_user c ≠ user_id req →
        serve (DeleteComment req) d =
        {| db := d;
           sent := [{| status := 401; body := Json_msg "Not your comment" |}];
           console := [] |}) ∧
  (∀ c, matched = [c] → comment_user c = user_id req →
        serve (DeleteComment req) d =
        {| db := {| users := users d;
                    posts :=
                      <[post_id p :=
                          set_comments
                            (filter (λ cmt, comment_id cmt ≠ params_c_id req)
                                    (post_comments p)) p]> (posts d) |};
           sent := [{| status := 200; body := Json_msg "Comment deleted" |}];
           console := [] |}).
Proof.
  intros (Hid & Hp) matched. split; [|split].
  - intros Hlen. unfold_handler. rewrite Hid. cbn. rewrite Hp.
    fold matched. destruct (length matched =? 1)%nat eqn:E; [|done].
    by apply Nat.eqb_eq in E.
  - intros c Hm Hne. unfold_handler. rewrite Hid. cbn. rewrite Hp.
    fold matched. rewrite Hm. cbn.
    by destruct (decide (comment_user c ≠ user_id req)).
  - intros c Hm Heq. unfold_handler. rewrite Hid. cbn. rewrite Hp.
    fold matched. rewrite Hm. cbn.
    by destruct (decide (comment_user c ≠ user_id req)).
Qed.

(** C6: [DeleteComment] answers 404 when the post is missing (no post is
    stored under the id, or the id is not a well-formed identifier); 404
    when the
    comments of the post with id [c_id] are none or more than one; 401
    when the single such comment is not the caller's; and otherwise
    removes every comment with that id, saves the post and answers with a
    confirmation. *)
Theorem DeleteComment_spec (req : Request) (d : Db) :
  (∀ oid, castObjectId (params_p_id req) = Some oid → posts d !! oid = None →
          serve (DeleteComment req) d =
          {| db := d;
             sent := [{| status := 404; body := Json_msg "Post not found" |}];
             console := [] |}) ∧
  (isObjectId (params_p_id req) = false →
   db (serve (DeleteComment req) d) = d ∧
   delivered (serve (DeleteComment req) d)
     = Some {| status := 404; body := Json_msg "Couldn't locate resource" |}) ∧
  (∀ p, stored d (params_p_id req) p →
     let matched := filter (λ cmt, comment_id cmt = params_c_id req)
                           (post_comments p) in
     let kept := filter (λ cmt, comment_id cmt ≠ params_c_id req)
                        (post_comments p) in
     (length matched = 0%nat ∨ 1 < length matched →
      serve (DeleteComment req) d =
      {| db := d;
         sent := [{| status := 404; body := Json_msg "Comment not found" |}];
         console := [] |}) ∧
     (∀ c, matched = [c] → comment_user c ≠ user_id req →
           serve (DeleteComment req) d =
           {| db := d;
              sent := [{| status := 401;
                          body := Json_msg "Not your comment" |}];
              console := [] |}) ∧
     (∀ c, matched = [c] → comment_user c = user_id req →
           serve (DeleteComment req) d =
           {| db := {| users := users d;
                       posts := <[post_id p := set_comments kept p]>
                                  (posts d) |};
              sent := [{| status := 200;
                          body := Json_msg "Comment deleted" |}];
              console := [] |} ∧
           (∀ c', c' ∈ kept ↔
                  c' ∈ post_comments p ∧ comment_id c' ≠ params_c_id req))).
Proof.
  split; [|split].
  - intros oid Hid Hp. unfold_handler. rewrite Hid. cbn. by rewrite Hp.
  - intros Hid%castObjectId_None. unfold delivered. unfold_handler.
    rewrite Hid. cbn. split; [by destruct d | reflexivity].
  - intros p Hst matched kept.
    destruct (DeleteComment_found req d p Hst) as (H0 & H1 & H2).
    split; [|split].
    + intros Hlen. apply H0. fold matched. lia.
    + exact H1.
    + intros c Hm Heq. split; [by apply (H2 c)|].
      intros c'. subst kept. rewrite list_elem_of_filter. tauto.
Qed.

Lemma DeleteComment_spec_witness :
  let req := Sample.request Sample.bob Sample.pid None in
  stored Sample.db4 (params_p_id req) Sample.post4 ∧
  sent (serve (DeleteComment req) Sample.db4)
    = [{| status := 200; body := Json_msg "Comment deleted" |}].
Proof.
  intros req.
  assert (Hst : stored Sample.db4 (params_p_id req) Sample.post4).
  { split; vm_compute; reflexivity. }
  split; [exact Hst|].
  destruct (proj2 (proj2 (proj2 (proj2 (DeleteComment_spec req Sample.db4))
                            Sample.post4 Hst)) Sample.comment4) as [Hrun _].
  - vm_compute. reflexivity.
  - reflexivity.
  - rewrite Hrun. reflexivity.
Defined.

(** C7: on a stored post none of whose comments has the id [c_id],
    [DeleteComment] answers 404 and writes nothing: the store, and with it
    the post's comments, is as before. *)
Theorem DeleteComment_no_match (req : Request) (d : Db) (p : PostDoc) :
  stored d (params_p_id req) p →
  (∀ c, c ∈ post_comments p → comment_id c ≠ params_c_id req) →
  serve (DeleteComment req) d =
  {| db := d;
     sent := [{| status := 404; body := Json_msg "Comment not found" |}];
     console := [] |} ∧
  (post_comments <$> posts (db (serve (DeleteComment req) d)) !! post_id p)
    = Some (post_comments p).
Proof.
  intros Hst Hnone.
  assert (Hrun : serve (DeleteComment req) d =
    {| db := d;
       sent := [{| status := 404; body := Json_msg "Comment not found" |}];
       console := [] |}).
  { apply (DeleteComment_found req d p Hst).
    destruct (filter _ (post_comments p)) as [|c l] eqn:E; [done|].
    assert (Hc : c ∈ filter (λ cmt, comment_id cmt = params_c_id req)
                            (post_comments p)).
    { rewrite E. apply elem_of_cons. by left. }
    apply list_elem_of_filter in Hc as [Hc Hin]. by destruct (Hnone c Hin). }
  split; [exact Hrun|]. rewrite Hrun. cbn [db].
  destruct Hst as (Hid & Hp). by rewrite Hp.
Qed.

Lemma DeleteComment_no_match_witness :
  let req := {| user_id := Sample.bob; params_id := Sample.pid;
                params_p_id := Sample.pid; params_c_id := Sample.cid2;
                body_text := None |} in
  stored Sample.db4 (params_p_id req) Sample.post4 ∧
  post_comments Sample.post4 = [Sample.comment4] ∧
  comment_id Sample.comment4 ≠ params_c_id req ∧
  serve (DeleteComment req) Sample.db4 =
  {| db := Sample.db4;
     sent := [{| status := 404; body := Json_msg "Comment not found" |}];
     console := [] |} ∧
  (post_comments <$> posts (db (serve (DeleteComment req) Sample.db4))
                       !! Sample.pid)
    = Some [Sample.comment4].
Proof.
  intros req.
  assert (Hst : stored Sample.db4 (params_p_id req) Sample.post4).
  { split; vm_compute; reflexivity. }
  assert (Hne : comment_id Sample.comment4 ≠ params_c_id req)
    by discriminate.
  split; [exact Hst|]. split; [reflexivity|]. split; [exact Hne|].
  apply (DeleteComment_no_match req Sample.db4 Sample.post4 Hst).
  intros c Hc. apply list_elem_of_singleton in Hc as ->. exact Hne.
Defined.

(** ** The catch blocks of GetPost and DeletePost *)

(** C10: in [GetPost] and in [DeletePost], when the lookup throws an error
    whose [kind] is 'ObjectId', the catch block sends the 404 and, as
    nothing returns after it, goes on to the 500 'Server Error' send: two
    responses are attempted for the one request, and the second attempt
    throws. *)
Theorem ObjectId_error_sends_twice (req : Request) (st st' : State)
        (err : Error) :
  sent st = [] →
  Post.findById (params_id req) st = (inl err, st') →
  kind err = Some "ObjectId" →
  sent (snd (GetPost req st))
    = [{| status := 404; body := Json_msg "Post not found" |};
       {| status := 500; body := Text "Server Error" |}] ∧
  sent (snd (DeletePost req st))
    = [{| status := 404; body := Json_msg "Post not found" |};
       {| status := 500; body := Text "Server Error" |}] ∧
  fst (GetPost req st) = inl HeadersSentError ∧
  fst (DeletePost req st) = inl HeadersSentError.
Proof.
  intros Hsent Hfind Hkind.
  unfold GetPost, DeletePost, try_catch, bind. rewrite Hfind.
  unfold catch_kind, bind, console_error, res_send, ret.
  destruct (decide (kind err = Some "ObjectId")); [|done].
  cbn [fst snd db sent console].
  assert (Hst' : sent st' = []).
  { unfold Post.findById in Hfind.
    destruct (castObjectId (params_id req)); congruence. }
  rewrite Hst'. done.
Qed.

Lemma ObjectId_error_sends_twice_witness :
  let req := Sample.request Sample.alice "42" None in
  let st := {| db := Sample.db3; sent := []; console := [] |} in
  Post.findById (params_id req) st = (inl CastError, st) ∧
  sent (snd (GetPost req st))
    = [{| status := 404; body := Json_msg "Post not found" |};
       {| status := 500; body := Text "Server Error" |}].
Proof.
  intros req st.
  assert (Hfind : Post.findById (params_id req) st = (inl CastError, st))
    by reflexivity.
  split; [exact Hfind|].
  exact (proj1 (ObjectId_error_sends_twice req st st CastError
                  eq_refl Hfind eq_refl)).
Defined.

(** * Further properties of the handlers *)

(** ** Every write is one of the listed ones *)

Lemma validationResult_passed (req : Request) :
  negb (isEmpty (validationResult req)) = false →
  ∃ t, body_text req = Some t ∧ t ≠ "".
Proof.
  unfold validationResult. destruct (body_text req) as [t|]; [|done].
  destruct (decide (t = "")); [done|]. eauto.
Qed.

Lemma serve_writes (rt : Route) (env : Env) (req : Request) (d : Db) :
  writes d env req rt (posts (db (serve (router rt env req) d))).
Proof.
  destruct rt; cbn [router]; unfold_handler.
  - (* CreatePost *)
    destruct (negb _) eqn:Ev; [apply writes_nothing|].
    apply validationResult_passed in Ev as (t & Ht & Hne).
    destruct (castObjectId _) as [uid|] eqn:Hid; [|apply writes_nothing].
    cbn.
    destruct (users d !! _) as [u|] eqn:Hu; [|apply writes_nothing]. cbn.
    destruct (posts d !! new_oid env) eqn:E; [apply writes_nothing|]. cbn.
    rewrite (text_of_Some req t Ht). by apply writes_post.
  - apply writes_nothing.
  - (* GetPost *)
    destruct (castObjectId _); [|apply writes_nothing]. cbn.
    destruct (posts d !! _); apply writes_nothing.
  - (* DeletePost *)
    destruct (castObjectId _) as [oid|] eqn:Hid; [|apply writes_nothing].
    cbn.
    destruct (posts d !! _) as [p|] eqn:E; [|apply writes_nothing].
    destruct (decide _) as [|Hown]; [apply writes_nothing|]. cbn.
    apply (writes_removal d env req oid); [done..|].
    by destruct (decide (post_user p = user_id req)).
  - (* ToggleLike *)
    destruct (castObjectId _) as [oid|] eqn:Hid; [|apply writes_nothing].
    cbn.
    destruct (posts d !! _) as [p|] eqn:E; [|apply writes_nothing]. cbn.
    destruct (length _ =? 0)%nat eqn:El; cbn.
    + apply (writes_like d env req oid); [done..|].
      by apply likers_filter_nil, Nat.eqb_eq.
    + apply (writes_unlike d env req oid); [done..|].
      destruct (decide (user_id req ∈ likers (post_likes p))) as [|Hn];
        [done|].
      apply likers_filter_nil in Hn. rewrite Hn in El. done.
  - (* AddComment *)
    destruct (negb _) eqn:Ev; [apply writes_nothing|].
    apply validationResult_passed in Ev as (t & Ht & Hne).
    destruct (castObjectId (user_id req)) as [uid|] eqn:Hu;
      [|apply writes_nothing]. cbn.
    destruct (castObjectId (params_id req)) as [oid|] eqn:Hid;
      [|apply writes_nothing]. cbn.
    destruct (users d !! _) as [u|] eqn:Eu; [|apply writes_nothing]. cbn.
    destruct (posts d !! _) as [p|] eqn:E; [|apply writes_nothing]. cbn.
    rewrite (text_of_Some req t Ht).
    by apply (writes_comment d env req t uid u oid).
  - (* DeleteComment *)
    destruct (castObjectId _) as [oid|] eqn:Hid; [|apply writes_nothing].
    cbn.
    destruct (posts d !! _) as [p|] eqn:E; [|apply writes_nothing].
    destruct (filter _ (post_comments p)) as [|c [|c' l]] eqn:Em;
      cbn; try apply writes_nothing.
    destruct (decide _) as [|Hown]; [apply writes_nothing|]. cbn.
    apply (writes_uncomment d env req oid p c); [done..|].
    by destruct (decide (comment_user c = user_id req)).
Qed.

(** A post found under its own id is the post the write is about. *)
Lemma writes_cases (d : Db) (env : Env) (req : Request) (rt : Route)
      (ps' : gmap string PostDoc) (id : string) (p : PostDoc) :
  writes d env req rt ps' → store_ok (posts d) → posts d !! id = Some p →
  ps' !! id = Some p ∨
  (rt = DELETE_post ∧ castObjectId (params_id req) = Some id ∧
   post_user p = user_id req ∧ ps' !! id = None) ∨
  (rt = PUT_tlike ∧ castObjectId (params_id req) = Some id ∧
   ∃ l, ps' !! id = Some (set_likes l p)) ∨
  (rt = POST_comment ∧ castObjectId (params_id req) = Some id ∧
   ∃ c, ps' !! id = Some (set_comments (c :: post_comments p) p)) ∨
  (rt = DELETE_comment ∧ castObjectId (params_p_id req) = Some id ∧
   (∃ c, filter (λ cmt, comment_id cmt = params_c_id req) (post_comments p)
           = [c] ∧ comment_user c = user_id req) ∧
   ps' !! id =
     Some (set_comments (filter (λ cmt, comment_id cmt ≠ params_c_id req)
                                (post_comments p)) p)).
Proof.
  intros Hw Hok Hp.
  destruct Hw as [rt|t uid u Ht Hne Hu Hus Hfresh|oid q Hid Hq Hown
                  |oid q Hid Hq Hl|oid q Hid Hq Hl
                  |t uid u oid q Ht Hne Hu Hus Hid Hq|oid q c Hid Hq Hm Hown].
  - by left.
  - left. rewrite lookup_insert_ne; [done|]. congruence.
  - destruct (Hok _ _ Hq) as [Hk _]. rewrite Hk.
    destruct (decide (oid = id)) as [->|Hne].
    + right; left. rewrite lookup_delete_eq.
      assert (q = p) by congruence. by subst q.
    + left. by rewrite lookup_delete_ne.
  - destruct (Hok _ _ Hq) as [Hk _]. rewrite Hk.
    destruct (decide (oid = id)) as [->|Hne].
    + right; right; left. rewrite lookup_insert_eq.
      assert (q = p) by congruence. subst q. eauto.
    + left. by rewrite lookup_insert_ne.
  - destruct (Hok _ _ Hq) as [Hk _]. rewrite Hk.
    destruct (decide (oid = id)) as [->|Hne].
    + right; right; left. rewrite lookup_insert_eq.
      assert (q = p) by congruence. subst q. eauto.
    + left. by rewrite lookup_insert_ne.
  - destruct (Hok _ _ Hq) as [Hk _]. rewrite Hk.
    destruct (decide (oid = id)) as [->|Hne'].
    + right; right; right; left. rewrite lookup_insert_eq.
      assert (q = p) by congruence. subst q. eauto.
    + left. by rewrite lookup_insert_ne.
  - destruct (Hok _ _ Hq) as [Hk _]. rewrite Hk.
    destruct (decide (oid = id)) as [->|Hne'].
    + right; right; right; right. rewrite lookup_insert_eq.
      assert (q = p) by congruence. subst q. eauto 10.
    + left. by rewrite lookup_insert_ne.
Qed.

Lemma served_cases (d : Db) (rt : Route) (env : Env) (req : Request)
      (id : string) (p : PostDoc) :
  reachable d → posts d !! id = Some p →
  let ps' := posts (db (serve (router rt env req) d)) in
  ps' !! id = Some p ∨
  (rt = DELETE_post ∧ castObjectId (params_id req) = Some id ∧
   post_user p = user_id req ∧ ps' !! id = None) ∨
  (rt = PUT_tlike ∧ castObjectId (params_id req) = Some id ∧
   ∃ l, ps' !! id = Some (set_likes l p)) ∨
  (rt = POST_comment ∧ castObjectId (params_id req) = Some id ∧
   ∃ c, ps' !! id = Some (set_comments (c :: post_comments p) p)) ∨
  (rt = DELETE_comment ∧ castObjectId (params_p_id req) = Some id ∧
   (∃ c, filter (λ cmt, comment_id cmt = params_c_id req) (post_comments p)
           = [c] ∧ comment_user c = user_id req) ∧
   ps' !! id =
     Some (set_comments (filter (λ cmt, comment_id cmt ≠ params_c_id req)
                                (post_comments p)) p)).
Proof.
  intros Hr Hp ps'. eapply writes_cases; [apply serve_writes| |done].
  by apply reachable_store_ok.
Qed.

(** ** Who can remove what *)

(** X1: a stored post disappears from a reachable store only through
    DELETE /:id with an id that denotes it (is cast to the id it is stored
    under), called by the post's owner. *)
Theorem only_owner_deletes_post (d : Db) (rt : Route) (env : Env)
        (req : Request) (id : string) (p : PostDoc) :
  reachable d → posts d !! id = Some p →
  posts (db (serve (router rt env req) d)) !! id = None →
  rt = DELETE_post ∧ castObjectId (params_id req) = Some id ∧
  post_user p = user_id req.
Proof.
  intros Hr Hp Hgone.
  destruct (served_cases d rt env req id p Hr Hp)
    as [H|[(-> & Hid & Hown & _)|[(_ & _ & l & H)|[(_ & _ & c & H)
        |(_ & _ & _ & H)]]]];
    [congruence|done|congruence..].
Qed.

Lemma only_owner_deletes_post_witness :
  let req := Sample.request Sample.alice Sample.PID None in
  posts (db (serve (router DELETE_post Sample.env1 req) Sample.db3))
    !! Sample.pid = None ∧
  castObjectId (params_id req) = Some Sample.pid ∧
  post_user Sample.post3 = user_id req.
Proof.
  intros req.
  assert (Hgone : posts (db (serve (router DELETE_post Sample.env1 req)
                               Sample.db3)) !! Sample.pid = None).
  { vm_compute. reflexivity. }
  split; [exact Hgone|].
  refine (proj2 (only_owner_deletes_post Sample.db3 DELETE_post
                   Sample.env1 req Sample.pid Sample.post3 _ _ Hgone)).
  - repeat apply reach_serve. apply reach_init.
  - vm_compute. reflexivity.
Defined.

(** X2: whatever the request, a post that stays in a reachable store keeps
    its id, text, author name, avatar, owner and date; its comments change
    only through the two comment routes. *)
Theorem post_fields_kept (d : Db) (rt : Route) (env : Env) (req : Request)
        (id : string) (p p' : PostDoc) :
  reachable d → posts d !! id = Some p →
  posts (db (serve (router rt env req) d)) !! id = Some p' →
  post_id p' = post_id p ∧ post_text p' = post_text p ∧
  post_name p' = post_name p ∧ post_avatar p' = post_avatar p ∧
  post_user p' = post_user p ∧ post_date p' = post_date p ∧
  (rt ≠ POST_comment → rt ≠ DELETE_comment →
   post_comments p' = post_comments p).
Proof.
  intros Hr Hp Hp'.
  destruct (served_cases d rt env req id p Hr Hp)
    as [H|[(_ & _ & _ & H)|[(_ & _ & l & H)|[(-> & _ & c & H)
        |(-> & _ & _ & H)]]]];
    rewrite H in Hp'; try done; injection Hp' as <-; done.
Qed.

Lemma post_fields_kept_witness :
  let req := Sample.request Sample.bob Sample.pid (Some "nice") in
  posts Sample.db3 !! Sample.pid = Some Sample.post3 ∧
  post_user Sample.post4 = post_user Sample.post3 ∧
  post_text Sample.post4 = post_text Sample.post3.
Proof.
  intros req.
  assert (Hp : posts Sample.db3 !! Sample.pid = Some Sample.post3).
  { vm_compute. reflexivity. }
  split; [exact Hp|].
  assert (Hr : reachable Sample.db3).
  { repeat apply reach_serve. apply reach_init. }
  assert (Hp' : posts (db (serve (router POST_comment Sample.env2 req)
                             Sample.db3)) !! Sample.pid = Some Sample.post4).
  { vm_compute. reflexivity. }
  pose proof (post_fields_kept Sample.db3 POST_comment Sample.env2 req
                Sample.pid Sample.post3 Sample.post4 Hr Hp Hp') as H.
  split; [apply H | apply H].
Defined.

(** X3: a comment leaves a post that stays in a reachable store only
    through DELETE /:p_id/:c_id with a post id that denotes that post and
    with that comment's id, called by the comment's owner. *)
Theorem only_owner_deletes_comment (d : Db) (rt : Route) (env : Env)
        (req : Request) (id : string) (p p' : PostDoc) (c : CommentDoc) :
  reachable d → posts d !! id = Some p →
  posts (db (serve (router rt env req) d)) !! id = Some p' →
  c ∈ post_comments p → c ∉ post_comments p' →
  rt = DELETE_comment ∧ castObjectId (params_p_id req) = Some id ∧
  params_c_id req = comment_id c ∧ comment_user c = user_id req.
Proof.
  intros Hr Hp Hp' Hin Hout.
  destruct (served_cases d rt env req id p Hr Hp)
    as [H|[(_ & _ & _ & H)|[(_ & _ & l & H)|[(_ & _ & c0 & H)
        |(-> & Hid & (c0 & Hm & Hown) & H)]]]];
    rewrite H in Hp'; try done; injection Hp' as <-.
  - done.
  - done.
  - cbn [set_comments post_comments] in Hout.
    destruct Hout. apply elem_of_cons. by right.
  - cbn [set_comments post_comments] in Hout.
    destruct (decide (comment_id c = params_c_id req)) as [Hc|Hc].
    + assert (Hc0 : c ∈ filter (λ cmt, comment_id cmt = params_c_id req)
                             (post_comments p))
        by (by apply list_elem_of_filter).
      rewrite Hm in Hc0. apply list_elem_of_singleton in Hc0 as ->. done.
    + destruct Hout. by apply list_elem_of_filter.
Qed.

Lemma only_owner_deletes_comment_witness :
  let req := Sample.request Sample.bob Sample.pid None in
  Sample.comment4 ∈ post_comments Sample.post4 ∧
  (Sample.comment4 ∉ post_comments Sample.post3) ∧
  castObjectId (params_p_id req) = Some Sample.pid ∧
  comment_user Sample.comment4 = user_id req.
Proof.
  intros req.
  assert (Hin : Sample.comment4 ∈ post_comments Sample.post4).
  { apply elem_of_cons. by left. }
  assert (Hout : Sample.comment4 ∉ post_comments Sample.post3).
  { apply not_elem_of_nil. }
  split; [exact Hin|]. split; [exact Hout|].
  destruct (only_owner_deletes_comment Sample.db4
            DELETE_comment Sample.env1 req Sample.pid Sample.post4
            Sample.post3 Sample.comment4) as (_ & Hid & _ & Hown);
    [ | | |exact Hin|exact Hout|by split].
  - repeat apply reach_serve. apply reach_init.
  - vm_compute. reflexivity.
  - vm_compute. reflexivity.
Defined.

(** ** What is stored is well formed *)

Lemma writes_post_ok (d : Db) (env : Env) (req : Request) (rt : Route)
      (ps' : gmap string PostDoc) :
  writes d env req rt ps' →
  (∀ id p, posts d !! id = Some p → post_ok id p) →
  ∀ id p, ps' !! id = Some p → post_ok id p.
Proof.
  intros Hw Hok.
  destruct Hw as [rt|t uid u Ht Hne Hu Hus Hfresh|oid q Hid Hq Hown
                  |oid q Hid Hq Hl|oid q Hid Hq Hl
                  |t uid u oid q Ht Hne Hu Hus Hid Hq|oid q c0 Hid Hq Hm Hown];
    intros id p Hp.
  - by apply Hok.
  - apply lookup_insert_Some in Hp as [[<- <-]|[_ Hp]]; [|by apply Hok].
    split; [done|]. split; [done|].
    split; [by apply (castObjectId_idemp (user_id req))|].
    intros c Hc. by apply elem_of_nil in Hc.
  - apply lookup_delete_Some in Hp as [_ Hp]. by apply Hok.
  - destruct (Hok _ _ Hq) as (Hk & Htx & Huq & Hc).
    apply lookup_insert_Some in Hp as [[<- <-]|[_ Hp]]; [|by apply Hok].
    done.
  - destruct (Hok _ _ Hq) as (Hk & Htx & Huq & Hc).
    apply lookup_insert_Some in Hp as [[<- <-]|[_ Hp]]; [|by apply Hok].
    done.
  - destruct (Hok _ _ Hq) as (Hk & Htx & Huq & Hc).
    apply lookup_insert_Some in Hp as [[<- <-]|[_ Hp]]; [|by apply Hok].
    split; [done|]. split; [done|]. split; [done|].
    cbn [set_comments post_comments].
    intros c [->|Hin]%elem_of_cons; [|by apply Hc].
    split; [done|]. by apply (castObjectId_idemp (user_id req)).
  - destruct (Hok _ _ Hq) as (Hk & Htx & Huq & Hc).
    apply lookup_insert_Some in Hp as [[<- <-]|[_ Hp]]; [|by apply Hok].
    split; [done|]. split; [done|]. split; [done|].
    cbn [set_comments post_comments].
    intros c' [_ Hin]%list_elem_of_filter. by apply Hc.
Qed.

(** X4: in every store the routes bring about, each post is stored under
    its own id, has a non-empty text and a well-formed owner id, and each
    of its comments has a non-empty text and a well-formed owner id. *)
Theorem stored_posts_well_formed (d : Db) (id : string) (p : PostDoc) :
  reachable d → posts d !! id = Some p →
  post_id p = id ∧ post_text p ≠ "" ∧ isObjectId (post_user p) = true ∧
  ∀ c, c ∈ post_comments p →
       comment_text c ≠ "" ∧ isObjectId (comment_user c) = true.
Proof.
  intros Hr. revert id p.
  induction Hr as [us|d us _ IH|d rt env req _ IH]; intros id p Hp.
  - cbn in Hp. by rewrite lookup_empty in Hp.
  - by apply IH.
  - by apply (writes_post_ok d env req rt _ (serve_writes rt env req d) IH).
Qed.

Lemma stored_posts_well_formed_witness :
  posts Sample.db4 !! Sample.pid = Some Sample.post4 ∧
  post_text Sample.post4 ≠ "".
Proof.
  assert (Hp : posts Sample.db4 !! Sample.pid = Some Sample.post4).
  { vm_compute. reflexivity. }
  split; [exact Hp|].
  refine (proj1 (proj2 (stored_posts_well_formed Sample.db4 Sample.pid
                          Sample.post4 _ Hp))).
  repeat apply reach_serve. apply reach_init.
Defined.

(** ** Responses *)

Ltac handler_step :=
  match goal with
  | |- context [negb (isEmpty (validationResult ?r))] =>
      destruct (negb (isEmpty (validationResult r))) eqn:?
  | |- context [castObjectId ?i] => destruct (castObjectId i) eqn:?
  | |- context [users ?d !! ?k] => destruct (users d !! k) eqn:?
  | |- context [posts ?d !! ?k] => destruct (posts d !! k) eqn:?
  | |- context [decide (?a ≠ ?b)] => destruct (decide (a ≠ b))
  | |- context [(length ?l =? ?n)%nat] => destruct (length l =? n)%nat eqn:?
  | |- context [?l !! 0%nat] => destruct (l !! 0%nat) eqn:?
  end; cbn.

Ltac handler_cases :=
  unfold delivered; unfold_handler; repeat handler_step.

(** X5: whenever the response a client receives has a status other than
    200, the request has written nothing: the store is as it was. *)
Theorem failure_writes_nothing (rt : Route) (env : Env) (req : Request)
        (d : Db) (r : Response) :
  delivered (serve (router rt env req) d) = Some r → status r ≠ 200%nat →
  db (serve (router rt env req) d) = d.
Proof.
  destruct rt; cbn [router]; handler_cases; intros Hd Hst; simplify_eq/=;
    try (by destruct d); try done.
Qed.

Lemma failure_writes_nothing_witness :
  let req := Sample.request Sample.bob Sample.pid None in
  delivered (serve (router DELETE_post Sample.env1 req) Sample.db3)
    = Some {| status := 401; body := Json_msg "Not your post" |} ∧
  db (serve (router DELETE_post Sample.env1 req) Sample.db3) = Sample.db3.
Proof.
  intros req.
  assert (Hd : delivered (serve (router DELETE_post Sample.env1 req)
                            Sample.db3)
               = Some {| status := 401; body := Json_msg "Not your post" |}).
  { vm_compute. reflexivity. }
  split; [exact Hd|].
  apply (failure_writes_nothing DELETE_post Sample.env1 req Sample.db3 _ Hd).
  discriminate.
Defined.

(** X6: no route writes to the user collection, and the two GET routes
    write nothing at all. *)
Theorem users_never_written (rt : Route) (env : Env) (req : Request)
        (d : Db) :
  users (db (serve (router rt env req) d)) = users d ∧
  (rt = GET_posts ∨ rt = GET_post → db (serve (router rt env req) d) = d).
Proof.
  split.
  - destruct rt; cbn [router]; handler_cases; reflexivity.
  - intros [-> | ->]; cbn [router]; handler_cases; by destruct d.
Qed.

(** X7: a request gets exactly one response and its handler runs to the
    end, except for GET /:id, DELETE /:id and DELETE /:p_id/:c_id with a
    post id that is not a valid ObjectId (neither 24 hexadecimal digits
    nor 12 characters): there a 404 is sent, a 500 is attempted after it,
    and the handler ends with the error of that second send. *)
Theorem exactly_one_response (rt : Route) (env : Env) (req : Request)
        (d : Db) :
  let malformed :=
    match rt with
    | GET_post | DELETE_post => negb (isObjectId (params_id req))
    | DELETE_comment => negb (isObjectId (params_p_id req))
    | _ => false
    end in
  let run := router rt env req {| db := d; sent := []; console := [] |} in
  if malformed
  then fst run = inl HeadersSentError ∧
       status <$> sent (snd run) = [404%nat; 500%nat]
  else fst run = inr tt ∧ length (sent (snd run)) = 1%nat.
Proof.
  intros malformed run. subst malformed run.
  destruct rt; cbn [router]; rewrite ?isObjectId_cast; handler_cases; done.
Qed.

(** X8: the statuses a route can answer with: 200, 400 or 500 for the two
    POST routes; 200 or 500 for the list and for the like toggle; 200, 404
    or 500 for GET /:id; 200, 401, 404 or 500 for the two DELETE routes. *)
Theorem route_statuses (rt : Route) (env : Env) (req : Request) (d : Db)
        (r : Response) :
  r ∈ sent (serve (router rt env req) d) →
  match rt with
  | POST_posts | POST_comment =>
      status r = 200%nat ∨ status r = 400%nat ∨ status r = 500%nat
  | GET_posts | PUT_tlike => status r = 200%nat ∨ status r = 500%nat
  | GET_post =>
      status r = 200%nat ∨ status r = 404%nat ∨ status r = 500%nat
  | DELETE_post | DELETE_comment =>
      status r = 200%nat ∨ status r = 401%nat ∨ status r = 404%nat
      ∨ status r = 500%nat
  end.
Proof.
  destruct rt; cbn [router]; handler_cases; intros Hr;
    repeat (apply elem_of_cons in Hr as [->|Hr]; [cbn; tauto|]);
    by apply elem_of_nil in Hr.
Qed.

Lemma route_statuses_witness :
  let req := Sample.request Sample.alice Sample.nobody None in
  let r := {| status := 500; body := Text "Server Error" |} in
  r ∈ sent (serve (router PUT_tlike Sample.env1 req) Sample.db3) ∧
  (status r = 200%nat ∨ status r = 500%nat).
Proof.
  intros req r.
  assert (Hr : r ∈ sent (serve (router PUT_tlike Sample.env1 req) Sample.db3)).
  { vm_compute. apply list_elem_of_In. left. reflexivity. }
  split; [exact Hr|].
  exact (route_statuses PUT_tlike Sample.env1 req Sample.db3 r Hr).
Defined.

(** X9: a handler logs one line when it answers 500 'Server Error' and
    logs nothing otherwise. *)
Theorem server_error_logged (rt : Route) (env : Env) (req : Request)
        (d : Db) :
  let st := serve (router rt env req) d in
  ({| status := 500; body := Text "Server Error" |} ∈ sent st ∧
   length (console st) = 1%nat) ∨
  (500%nat ∉ status <$> sent st) ∧ console st = [].
Proof.
  destruct rt; cbn [router]; handler_cases;
    first [ left; split; [|reflexivity];
            repeat first [ by (apply elem_of_cons; left)
                         | apply elem_of_cons; right ]
          | right; split; [|reflexivity];
            intros Hin;
            repeat (apply elem_of_cons in Hin as [Hin|Hin]; [done|]);
            by apply elem_of_nil in Hin ].
Qed.

(** X10: with a valid text but a caller who is not in the user collection
    (or whose id is not well formed), [CreatePost] and [AddComment] answer
    500 'Server Error' and store nothing, whether or not the post to
    comment on exists. *)
Theorem unknown_caller_server_error (env : Env) (req : Request) (d : Db)
        (t : string) :
  body_text req = Some t → t ≠ "" →
  isObjectId (user_id req) = false ∨
  (∀ uid, castObjectId (user_id req) = Some uid → users d !! uid = None) →
  sent (serve (CreatePost env req) d)
    = [{| status := 500; body := Text "Server Error" |}] ∧
  db (serve (CreatePost env req) d) = d ∧
  sent (serve (AddComment env req) d)
    = [{| status := 500; body := Text "Server Error" |}] ∧
  db (serve (AddComment env req) d) = d.
Proof.
  intros Ht Hne Hu. unfold CreatePost, AddComment.
  rewrite (validationResult_ok req t Ht Hne). cbn [isEmpty negb].
  unfold_handler.
  destruct Hu as [Hu%castObjectId_None|Hu].
  - rewrite Hu. cbn. by destruct d.
  - destruct (castObjectId (user_id req)) as [uid|]; cbn; [|by destruct d].
    rewrite (Hu uid eq_refl). cbn.
    destruct (castObjectId (params_id req)); cbn; by destruct d.
Qed.

Lemma unknown_caller_server_error_witness :
  let req := Sample.request Sample.nobody Sample.pid (Some "hi") in
  castObjectId (user_id req) = Some Sample.nobody ∧
  users Sample.db3 !! Sample.nobody = None ∧
  sent (serve (AddComment Sample.env2 req) Sample.db3)
    = [{| status := 500; body := Text "Server Error" |}].
Proof.
  intros req.
  assert (Hc : castObjectId (user_id req) = Some Sample.nobody).
  { vm_compute. reflexivity. }
  assert (Hu : users Sample.db3 !! Sample.nobody = None).
  { vm_compute. reflexivity. }
  split; [exact Hc|]. split; [exact Hu|].
  refine (proj1 (proj2 (proj2 (unknown_caller_server_error Sample.env2 req
                                 Sample.db3 "hi" _ _ (or_intror _))))).
  - reflexivity.
  - discriminate.
  - intros uid Huid. rewrite Hc in Huid. injection Huid as <-. exact Hu.
Defined.

(** ** Round trips *)

Lemma filter_other_comments (cid : string) (l : list CommentDoc) :
  (∀ c, c ∈ l → comment_id c ≠ cid) →
  filter (λ cmt, comment_id cmt ≠ cid) l = l ∧
  filter (λ cmt, comment_id cmt = cid) l = [].
Proof.
  induction l as [|x l IH]; [done|]. intros Hall.
  destruct IH as [IH1 IH2].
  { intros c Hc. apply Hall, elem_of_cons. by right. }
  assert (Hx : comment_id x ≠ cid) by (apply Hall, elem_of_cons; by left).
  rewrite filter_cons_True, filter_cons_False by tauto.
  by rewrite IH1, IH2.
Qed.

(** X11: a post created by [CreatePost], for a caller whose id is in the
    stored form, and then deleted by its author with [DeletePost] leaves
    the store exactly as it was before the two requests. *)
Theorem create_then_delete (env : Env) (req req' : Request) (d : Db)
        (t : string) (u : UserDoc) :
  body_text req = Some t → t ≠ "" →
  castObjectId (user_id req) = Some (user_id req) →
  users d !! user_id req = Some u →
  posts d !! new_oid env = None →
  castObjectId (params_id req') = Some (new_oid env) →
  user_id req' = user_id req →
  let d1 := db (serve (CreatePost env req) d) in
  sent (serve (DeletePost req') d1)
    = [{| status := 200; body := Json_msg "Post deleted" |}] ∧
  db (serve (DeletePost req') d1) = d.
Proof.
  intros Ht Hne Hid Hu Hfresh Hparam Hcaller d1.
  assert (Hd1 : d1 = {| users := users d;
                        posts := <[new_oid env :=
                                     Post.doc env t (user_name u)
                                       (user_avatar u) (user_id req)]>
                                   (posts d) |}).
  { subst d1. unfold CreatePost. rewrite (validationResult_ok req t Ht Hne).
    cbn [isEmpty negb]. unfold_handler. rewrite Hid. cbn. rewrite Hu. cbn.
    rewrite Hfresh. cbn. by rewrite (text_of_Some req t Ht). }
  rewrite Hd1. unfold_handler. rewrite Hparam. cbn.
  rewrite lookup_insert_eq. cbn. rewrite Hcaller.
  destruct (decide (user_id req ≠ user_id req)); [done|]. cbn.
  split; [done|]. rewrite delete_insert_id by done. by destruct d.
Qed.

Lemma create_then_delete_witness :
  let req := Sample.request Sample.alice "" (Some "hello") in
  let req' := Sample.request Sample.alice Sample.pid None in
  posts Sample.db0 !! new_oid Sample.env1 = None ∧
  db (serve (DeletePost req') (db (serve (CreatePost Sample.env1 req)
                                     Sample.db0))) = Sample.db0.
Proof.
  intros req req'.
  assert (Hfresh : posts Sample.db0 !! new_oid Sample.env1 = None)
    by reflexivity.
  split; [exact Hfresh|].
  refine (proj2 (create_then_delete Sample.env1 req req' Sample.db0 "hello"
                   {| user_name := "Alice"; user_avatar := "a.png" |}
                   _ _ _ _ Hfresh _ _)).
  - reflexivity.
  - discriminate.
  - vm_compute. reflexivity.
  - vm_compute. reflexivity.
  - vm_compute. reflexivity.
  - reflexivity.
Defined.

(** X12: a comment added with [AddComment], by a caller whose id is in
    the stored form and under an id no other comment of the post has, and
    then deleted by its author with [DeleteComment] leaves the store
    exactly as it was before the two requests. *)
Theorem comment_then_delete (env : Env) (req req' : Request) (d : Db)
        (t : string) (u : UserDoc) (p : PostDoc) :
  body_text req = Some t → t ≠ "" →
  castObjectId (user_id req) = Some (user_id req) →
  users d !! user_id req = Some u →
  stored d (params_id req) p →
  (∀ c, c ∈ post_comments p → comment_id c ≠ new_oid env) →
  user_id req' = user_id req →
  castObjectId (params_p_id req') = castObjectId (params_id req) →
  params_c_id req' = new_oid env →
  let d1 := db (serve (AddComment env req) d) in
  sent (serve (DeleteComment req') d1)
    = [{| status := 200; body := Json_msg "Comment deleted" |}] ∧
  db (serve (DeleteComment req') d1) = d.
Proof.
  intros Ht Hne Hid Hu (Hpid & Hp) Hnew Hcaller Hparam Hcid d1.
  destruct (filter_other_comments (new_oid env) (post_comments p) Hnew)
    as [Hkeep Hnone].
  set (c := {| comment_id := new_oid env; comment_text := t;
               comment_name := user_name u; comment_avatar := user_avatar u;
               comment_user := user_id req; comment_date := now env |}).
  assert (Hd1 : d1 = {| users := users d;
                        posts := <[post_id p :=
                                     set_comments (c :: post_comments p) p]>
                                   (posts d) |}).
  { subst d1. unfold AddComment. rewrite (validationResult_ok req t Ht Hne).
    cbn [isEmpty negb]. unfold_handler. rewrite Hid. cbn. rewrite Hpid. cbn.
    rewrite Hu. cbn. rewrite Hp. cbn.
    by rewrite (text_of_Some req t Ht). }
  rewrite Hd1. unfold_handler. rewrite Hparam, Hpid. cbn.
  rewrite lookup_insert_eq. cbn [set_comments post_comments]. rewrite Hcid.
  rewrite filter_cons_True by done. rewrite filter_cons_False by (cbn; tauto).
  rewrite Hnone, Hkeep. cbn. rewrite Hcaller.
  destruct (decide (user_id req ≠ user_id req)); [done|]. cbn.
  split; [done|]. rewrite insert_insert_eq.
  replace (set_comments (post_comments p) (set_comments _ p))
    with p by (by destruct p).
  rewrite insert_id by done. by destruct d.
Qed.

Lemma comment_then_delete_witness :
  let req := Sample.request Sample.bob Sample.pid (Some "nice") in
  let req' := Sample.request Sample.bob Sample.pid None in
  stored Sample.db3 (params_id req) Sample.post3 ∧
  db (serve (DeleteComment req') (db (serve (AddComment Sample.env2 req)
                                        Sample.db3))) = Sample.db3.
Proof.
  intros req req'.
  assert (Hst : stored Sample.db3 (params_id req) Sample.post3).
  { split; vm_compute; reflexivity. }
  split; [exact Hst|].
  refine (proj2 (comment_then_delete Sample.env2 req req' Sample.db3 "nice"
                   {| user_name := "Bob"; user_avatar := "b.png" |}
                   Sample.post3 _ _ _ _ Hst _ _ _ _)).
  - reflexivity.
  - discriminate.
  - vm_compute. reflexivity.
  - vm_compute. reflexivity.
  - intros c Hc. cbn in Hc. by apply elem_of_nil in Hc.
  - reflexivity.
  - reflexivity.
  - reflexivity.
Defined.

(** ** The like toggle *)

(** X13: on a stored post [ToggleLike] flips whether the caller's id is
    among the likes, leaves every other user's like where it was, leaves
    the comments alone, and answers with the like list it has saved. *)
Theorem ToggleLike_flips (d : Db) (req : Request) (p : PostDoc) :
  stored d (params_id req) p →
  ∃ p', stored (db (serve (ToggleLike req) d)) (params_id req) p' ∧
        sent (serve (ToggleLike req) d)
          = [{| status := 200; body := Json_likes (post_likes p') |}] ∧
        (user_id req ∈ likers (post_likes p') ↔
         user_id req ∉ likers (post_likes p)) ∧
        filter (λ liker, liker_id liker ≠ user_id req) (post_likes p')
          = filter (λ liker, liker_id liker ≠ user_id req) (post_likes p) ∧
        post_comments p' = post_comments p.
Proof.
  intros Hst. pose proof Hst as (Hid & Hp).
  destruct (decide (user_id req ∈ likers (post_likes p))) as [Hin|Hnot].
  - rewrite (ToggleLike_unlike d req p Hst Hin). cbn [db sent].
    exists (set_likes (filter (λ liker, liker_id liker ≠ user_id req)
                              (post_likes p)) p).
    split; [|split; [reflexivity|]].
    + split; [done|]. cbn [posts set_likes post_id]. apply lookup_insert_eq.
    + cbn [set_likes post_likes post_comments]. split; [|split; [|done]].
      * pose proof (likers_filter_other (user_id req) (post_likes p)). tauto.
      * apply filter_other_id, likers_filter_other.
  - rewrite (ToggleLike_like d req p Hst Hnot). cbn [db sent].
    exists (set_likes ({| liker_id := user_id req |} :: post_likes p) p).
    split; [|split; [reflexivity|]].
    + split; [done|]. cbn [posts set_likes post_id]. apply lookup_insert_eq.
    + cbn [set_likes post_likes post_comments]. split; [|split; [|done]].
      * rewrite likers_cons. cbn [liker_id]. split; [done|].
        intros _. apply elem_of_cons. by left.
      * by rewrite filter_cons_False by (cbn; tauto).
Qed.

Lemma ToggleLike_flips_witness :
  let req := Sample.request Sample.alice Sample.pid None in
  stored Sample.db3 (params_id req) Sample.post3 ∧
  ∃ p', stored (db (serve (ToggleLike req) Sample.db3)) (params_id req) p' ∧
        (user_id req ∈ likers (post_likes p') ↔
         user_id req ∉ likers (post_likes Sample.post3)).
Proof.
  intros req.
  assert (Hst : stored Sample.db3 (params_id req) Sample.post3).
  { split; vm_compute; reflexivity. }
  split; [exact Hst|].
  destruct (ToggleLike_flips Sample.db3 req Sample.post3 Hst)
    as (p' & Hst' & _ & Hflip & _ & _).
  exists p'. split; [exact Hst' | exact Hflip].
Defined.

(** X14: in a reachable store one [ToggleLike] changes the number of likes
    of the post by exactly one: one more when the caller had not liked it,
    one less when the caller had. *)
Theorem ToggleLike_counts (d : Db) (req : Request) (p : PostDoc) :
  reachable d → stored d (params_id req) p →
  ∃ p', posts (db (serve (ToggleLike req) d)) !! post_id p = Some p' ∧
        (user_id req ∉ likers (post_likes p) →
         length (post_likes p') = S (length (post_likes p))) ∧
        (user_id req ∈ likers (post_likes p) →
         S (length (post_likes p')) = length (post_likes p)).
Proof.
  intros Hr Hst. pose proof Hst as (Hid & Hp).
  destruct (reachable_store_ok d Hr _ _ Hp) as [_ Hnd].
  destruct (decide (user_id req ∈ likers (post_likes p))) as [Hin|Hnot].
  - rewrite (ToggleLike_unlike d req p Hst Hin). cbn [db posts].
    eexists. split; [apply lookup_insert_eq|]. split; [done|]. intros _.
    cbn [set_likes post_likes].
    pose proof (filter_app_complement
                  (λ liker, liker_id liker = user_id req) (post_likes p))
      as Hperm.
    apply Permutation_length in Hperm.
    rewrite length_app, (filter_same_id _ _ Hnd Hin) in Hperm.
    exact Hperm.
  - rewrite (ToggleLike_like d req p Hst Hnot). cbn [db posts].
    eexists. split; [apply lookup_insert_eq|]. split; [done|]. intros Hin.
    done.
Qed.

Lemma ToggleLike_counts_witness :
  let req := Sample.request Sample.alice Sample.pid None in
  stored Sample.db3 (params_id req) Sample.post3 ∧
  ∃ p', posts (db (serve (ToggleLike req) Sample.db3)) !! Sample.pid
          = Some p' ∧
        S (length (post_likes p')) = length (post_likes Sample.post3).
Proof.
  intros req.
  assert (Hst : stored Sample.db3 (params_id req) Sample.post3).
  { split; vm_compute; reflexivity. }
  split; [exact Hst|].
  assert (Hr : reachable Sample.db3).
  { repeat apply reach_serve. apply reach_init. }
  destruct (ToggleLike_counts Sample.db3 req Sample.post3 Hr Hst)
    as (p' & Hp' & _ & Hless).
  exists p'. split; [exact Hp'|]. apply Hless.
  vm_compute. apply list_elem_of_In. right. left. reflexivity.
Defined.

(** ** Listing *)

Lemma insert_by_date_perm (p : PostDoc) (l : list PostDoc) :
  Post.insert_by_date p l ≡ₚ p :: l.
Proof.
  induction l as [|q l IH]; [done|]. cbn [Post.insert_by_date].
  destruct (post_date q <=? post_date p)%N; [done|].
  rewrite IH. apply Permutation_swap.
Qed.

Lemma insert_by_date_sorted (p : PostDoc) (l : list PostDoc) :
  newest_first l → newest_first (Post.insert_by_date p l).
Proof.
  unfold newest_first. induction l as [|q l IH]; intros Hs.
  - repeat constructor.
  - cbn [Post.insert_by_date].
    destruct (post_date q <=? post_date p)%N eqn:E.
    + constructor; [done|]. constructor. by apply N.leb_le.
    + apply N.leb_gt in E. apply Sorted_inv in Hs as [Hs Hhd].
      constructor; [by apply IH|].
      destruct l as [|q' l]; cbn [Post.insert_by_date].
      * constructor. lia.
      * apply HdRel_inv in Hhd.
        destruct (post_date q' <=? post_date p)%N; constructor; [lia|done].
Qed.

(** X15: [ListPosts] answers 200 with the stored posts, each exactly once,
    no post before a newer one, and writes nothing. *)
Theorem ListPosts_spec (req : Request) (d : Db) :
  ∃ l, serve (ListPosts req) d =
       {| db := d; sent := [{| status := 200; body := Json_posts l |}];
          console := [] |} ∧
       l ≡ₚ (map_to_list (posts d)).*2 ∧
       newest_first l ∧
       (∀ p, p ∈ l ↔ ∃ id, posts d !! id = Some p).
Proof.
  eexists. split; [|split; [|split]].
  - unfold_handler. destruct d. reflexivity.
  - cbn [posts]. induction (map_to_list _).*2 as [|p l IH]; [done|].
    cbn [foldr]. by rewrite insert_by_date_perm, IH.
  - cbn [posts]. induction (map_to_list _).*2 as [|p l IH].
    + constructor.
    + cbn [foldr]. by apply insert_by_date_sorted.
  - intros p. cbn [posts].
    assert (Hperm : foldr Post.insert_by_date [] (map_to_list (posts d)).*2
                    ≡ₚ (map_to_list (posts d)).*2).
    { induction (map_to_list _).*2 as [|q l IH]; [done|].
      cbn [foldr]. by rewrite insert_by_date_perm, IH. }
    rewrite Hperm, list_elem_of_fmap. split.
    + intros ([id q] & -> & Hin). exists id.
      by apply elem_of_map_to_list in Hin.
    + intros (id & Hp). exists (id, p). split; [done|].
      by apply elem_of_map_to_list.
Qed.

(** ** One request, one post *)

(** X16: a request touches no post but the one it names: in a reachable
    store every post stored under an id that the request's post id does
    not denote (for [CreatePost], under another id than the one the store
    assigns) is after the request what it was before. *)
Theorem other_posts_untouched (d : Db) (rt : Route) (env : Env)
        (req : Request) (id : string) :
  reachable d →
  match rt with
  | POST_posts => id ≠ new_oid env
  | DELETE_comment => castObjectId (params_p_id req) ≠ Some id
  | _ => castObjectId (params_id req) ≠ Some id
  end →
  posts (db (serve (router rt env req) d)) !! id = posts d !! id.
Proof.
  intros Hr Hid. pose proof (reachable_store_ok d Hr) as Hok.
  destruct (serve_writes rt env req d)
    as [rt|t uid u Ht Hne Hu Hus Hfresh|oid q Hq0 Hq Hown|oid q Hq0 Hq Hl
        |oid q Hq0 Hq Hl|t uid u oid q Ht Hne Hu Hus Hq0 Hq
        |oid q c Hq0 Hq Hm Hown];
    try done;
    try (destruct (Hok _ _ Hq) as [Hk _]; rewrite Hk).
  - by rewrite lookup_insert_ne.
  - rewrite lookup_delete_ne; [done|]. congruence.
  - rewrite lookup_insert_ne; [done|]. congruence.
  - rewrite lookup_insert_ne; [done|]. congruence.
  - rewrite lookup_insert_ne; [done|]. congruence.
  - rewrite lookup_insert_ne; [done|]. congruence.
Qed.

Lemma other_posts_untouched_witness :
  let req := Sample.request Sample.bob Sample.nobody None in
  castObjectId (params_id req) ≠ Some Sample.pid ∧
  posts (db (serve (router PUT_tlike Sample.env1 req) Sample.db3))
    !! Sample.pid = posts Sample.db3 !! Sample.pid.
Proof.
  intros req.
  assert (Hne : castObjectId (params_id req) ≠ Some Sample.pid).
  { vm_compute. discriminate. }
  split; [exact Hne|].
  apply (other_posts_untouched Sample.db3 PUT_tlike Sample.env1 req
           Sample.pid); [|exact Hne].
  repeat apply reach_serve. apply reach_init.
Defined.

Lemma users_never_written_witness :
  let req := Sample.request Sample.alice Sample.pid None in
  db (serve (router GET_post Sample.env1 req) Sample.db3) = Sample.db3.
Proof.
  intros req.
  apply (proj2 (users_never_written GET_post Sample.env1 req Sample.db3)).
  right. reflexivity.
Defined.
